(** * PixelTwin web cloner: a Rocq model of the front end and of the
      extraction / regeneration pipeline

    The front-end code (Next.js / React, TypeScript) is embedded function by
    function: JavaScript strings are sequences of UTF-16 code units, React
    state is a record updated by the setters, handlers that call back or
    fetch return the trace of their calls, and [try]/[catch] is an explicit
    sum of a thrown value and a result.

    The Python back end (capture, consolidation, prompt assembly, generation
    orchestration, validation) is not among the TypeScript sources; module
    [Pipeline] models it from the design specification and says so at each
    definition. *)

From Stdlib Require Import List String Ascii Bool Arith NArith ZArith Lia.
From Stdlib Require Import DecimalString SpecFloat.
Import ListNotations.

Set Implicit Arguments.
Set Warnings "-register-all".


(* ===================================================================== *)
(** ** JavaScript strings *)
(* ===================================================================== *)

Module JS.

(** A JavaScript string is a sequence of UTF-16 code units. *)
Definition char := N.
Definition str := list char.

(** An ASCII literal of the source, one code unit per character.  The
    back quote stands for the double quote U+0022, which the template
    literals of the source contain and which never holds a back quote
    themselves. *)
Definition unit_of_ascii (a : ascii) : char :=
  let n := N_of_ascii a in if N.eqb n 96 then 34%N else n.

Definition lit (s : string) : str := map unit_of_ascii (list_ascii_of_string s).

(** [String.prototype.length]. *)
Definition length (s : str) : nat := List.length s.

(** ECMAScript WhiteSpace and LineTerminator code units, the ones that
    [String.prototype.trim] strips. *)
Definition isWhiteSpace (c : char) : bool :=
  ((9 <=? c) && (c <=? 13) || (c =? 32) || (c =? 160) || (c =? 5760)
   || (8192 <=? c) && (c <=? 8202)
   || (c =? 8232) || (c =? 8233) || (c =? 8239) || (c =? 8287)
   || (c =? 12288) || (c =? 65279))%N.

Fixpoint trimStart (s : str) : str :=
  match s with
  | [] => []
  | c :: s' => if isWhiteSpace c then trimStart s' else s
  end.

Definition trimEnd (s : str) : str := rev (trimStart (rev s)).

Definition trim (s : str) : str := trimEnd (trimStart s).

(** Truthiness of a string: every string but the empty one. *)
Definition truthy (s : str) : bool :=
  match s with [] => false | _ :: _ => true end.

(** [s.substring(0, n)]. *)
Definition substring0 (n : nat) (s : str) : str := firstn n s.

(** ASCII lower-casing of one code unit, as [toLowerCase] acts on it. *)
Definition lowerASCII (c : char) : char :=
  if ((65 <=? c) && (c <=? 90))%N then (c + 32)%N else c.

(** A pattern character of a regular expression with the [i] flag (and
    without the [u] flag) matches an input code unit when both have the
    same canonical form.  For the ASCII pattern characters used here
    that is equality up to ASCII case: a non-ASCII code unit whose upper
    case is ASCII keeps its own canonical form. *)
Definition ci_eq (p c : char) : bool := N.eqb (lowerASCII p) (lowerASCII c).

(** Match the literal pattern [p] case-insensitively at the head of [s]
    and return what follows. *)
Fixpoint eat_ci (p s : str) : option str :=
  match p with
  | [] => Some s
  | a :: p' =>
      match s with
      | [] => None
      | c :: s' => if ci_eq a c then eat_ci p' s' else None
      end
  end.

(** [s] begins with [p] up to ASCII case. *)
Definition starts_with_ci (p s : str) : bool :=
  match eat_ci p s with Some _ => true | None => false end.

(** Decimal rendering of a length, as a template literal interpolates a
    non-negative integer. *)
Definition of_nat (n : nat) : str :=
  lit (NilZero.string_of_uint (Nat.to_uint n)).

End JS.

(* ===================================================================== *)
(** ** The clone form: [CloneForm.handleSubmit] and [UrlForm.handleSubmit] *)
(* ===================================================================== *)

Module CloneForm.

Import JS.

(** [/^https?:\/\//i.test(s)]: [http], then an optional [s] tried first
    by the greedy quantifier, then [://]. *)
Definition has_http_scheme (s : str) : bool :=
  match eat_ci (lit "http") s with
  | None => false
  | Some r =>
      let with_s :=
        match r with
        | c :: r' => ci_eq 115%N c && starts_with_ci (lit "://") r'
        | [] => false
        end in
      with_s || starts_with_ci (lit "://") r
  end.

(** What the handler does to the outside world. *)
Inductive effect :=
| PreventDefault
| OnSubmit (formattedUrl : str).

(** [handleSubmit], with [url] the state of the input field.  The three
    forms of the repository (two skins of [CloneForm], and [UrlForm])
    have the same body. *)
Definition handleSubmit (url : str) : list effect :=
  PreventDefault ::
  (if negb (truthy (trim url)) then []
   else
     let formattedUrl := trim url in
     let formattedUrl :=
       if negb (has_http_scheme formattedUrl)
       then lit "https://" ++ formattedUrl
       else formattedUrl in
     [OnSubmit formattedUrl]).

(** The URLs handed to [onSubmit] during one run of the handler. *)
Definition submitted (url : str) : list str :=
  flat_map (fun e => match e with OnSubmit u => [u] | PreventDefault => [] end)
           (handleSubmit url).

(** A URL that carries its scheme: it begins with [http://] or
    [https://], letters in either case. *)
Definition begins_with_scheme (s : str) : bool :=
  starts_with_ci (lit "http://") s || starts_with_ci (lit "https://") s.

End CloneForm.


(* ===================================================================== *)
(** ** Thrown values and JSON *)
(* ===================================================================== *)

Module Exn.

(** What a [catch] clause receives: an [Error] object, of which the code
    reads the message only, or some other value. *)
Inductive thrown :=
| ErrorObject (message : JS.str)
| OtherValue.

(** A computation that returns or throws; an awaited promise that resolves
    or rejects. *)
Definition result (A : Type) : Type := (thrown + A)%type.

(** [err instanceof Error ? err.message : fallback]. *)
Definition message_or (fallback : JS.str) (err : thrown) : JS.str :=
  match err with
  | ErrorObject m => m
  | OtherValue => fallback
  end.

End Exn.

Module Json.

Import JS.

(** A value that [JSON.parse] can return.  Numbers are IEEE 754 doubles. *)
Inductive value :=
| Null
| Bool (b : bool)
| Number (x : SpecFloat.spec_float)
| Str (s : str)
| Array (items : list value)
| Object (members : list (str * value)).

Fixpoint str_eqb (a b : str) : bool :=
  match a, b with
  | [], [] => true
  | x :: a', y :: b' => N.eqb x y && str_eqb a' b'
  | _, _ => false
  end.

(** The member of name [k] of a parsed object; when the text repeats a
    name, the last member is the one the object holds. *)
Fixpoint member (k : str) (ms : list (str * value)) : option value :=
  match ms with
  | [] => None
  | (k', v) :: ms' =>
      match member k ms' with
      | Some w => Some w
      | None => if str_eqb k k' then Some v else None
      end
  end.

(** Reading the property [k] of a value, by a member access or by a
    destructuring pattern; [None] is [undefined].  Reading from [null]
    throws a [TypeError]; the engine chooses its message, and no handler
    here reads it.  The names read in this program ([url], [detail]) are
    defined by no prototype, so that only objects have them. *)
Definition property (k : str) (v : value) : Exn.result (option value) :=
  match v with
  | Null => inl (Exn.ErrorObject (lit "Cannot read properties of null"))
  | Object ms => inr (member k ms)
  | Bool _ | Number _ | Str _ | Array _ => inr None
  end.

(** Truthiness: [undefined], [null], [false], zeros, [NaN] and the empty
    string are falsy. *)
Definition truthy (v : option value) : bool :=
  match v with
  | None => false
  | Some Null => false
  | Some (Bool b) => b
  | Some (Number (SpecFloat.S754_zero _)) => false
  | Some (Number SpecFloat.S754_nan) => false
  | Some (Number _) => true
  | Some (Str s) => JS.truthy s
  | Some (Array _) => true
  | Some (Object _) => true
  end.

End Json.

(* ===================================================================== *)
(** ** The home page: [Home.handleClone] *)
(* ===================================================================== *)

Module Home.

Import JS.

(** [CloneResponse] of [lib/types]: the fields the components read.  Both
    are read with [?.], so either may be missing at run time. *)
Record CloneResponse := {
  clone_html : option str;
  images : option (list str)
}.

(** The four [useState] cells of the page. *)
Record state := {
  cloneResult : option CloneResponse;
  isLoading : bool;
  error : option str;
  originalUrl : str
}.

Definition setCloneResult (v : option CloneResponse) (s : state) : state :=
  {| cloneResult := v; isLoading := isLoading s; error := error s;
     originalUrl := originalUrl s |}.

Definition setIsLoading (v : bool) (s : state) : state :=
  {| cloneResult := cloneResult s; isLoading := v; error := error s;
     originalUrl := originalUrl s |}.

Definition setError (v : option str) (s : state) : state :=
  {| cloneResult := cloneResult s; isLoading := isLoading s; error := v;
     originalUrl := originalUrl s |}.

Definition setOriginalUrl (v : str) (s : state) : state :=
  {| cloneResult := cloneResult s; isLoading := isLoading s; error := error s;
     originalUrl := v |}.

(** The statements of [handleClone] before the [await]. *)
Definition handleClone_start (url : str) (s : state) : state :=
  setOriginalUrl url (setCloneResult None (setError None (setIsLoading true s))).

(** The [try] / [catch] / [finally] around the awaited [cloneWebsite(url)],
    given how the promise settled. *)
Definition handleClone_settle (settled : Exn.result CloneResponse) (s : state) : state :=
  let s :=
    match settled with
    | inr result => setCloneResult (Some result) s
    | inl err => setError (Some (Exn.message_or (lit "Failed to clone website") err)) s
    end in
  setIsLoading false s.

(** One completed run of [handleClone]; [cloneWebsite] is the API helper
    of [lib/api]. *)
Definition handleClone (cloneWebsite : str -> Exn.result CloneResponse)
    (url : str) (s : state) : state :=
  handleClone_settle (cloneWebsite url) (handleClone_start url s).

(** [handleReset]. *)
Definition handleReset (s : state) : state :=
  setOriginalUrl [] (setError None (setCloneResult None s)).

End Home.

(* ===================================================================== *)
(** ** The API route: [POST] of [app/api/clone/stream/route.ts] *)
(* ===================================================================== *)

Module Route.

Import JS.

(** The argument of the forwarding [fetch].  [body] is the value whose
    [JSON.stringify] is sent. *)
Record FetchRequest := {
  endpoint : str;
  method : str;
  headers : list (str * str);
  body : Json.value
}.

(** What the handler reads of the back end's response. *)
Record BackendResponse := {
  status : nat;
  json : Exn.result Json.value
}.

(** [response.ok]: the status is in the range 200 to 299. *)
Definition ok (r : BackendResponse) : bool :=
  (200 <=? status r) && (status r <=? 299).

(** The incoming request: the handler only awaits [request.json()]. *)
Record NextRequest := {
  request_json : Exn.result Json.value
}.

(** A response built by [NextResponse.json(data, { status })]:
    [response_body] is the value [data] given to it.  The bytes that go
    out are [JSON.stringify(data)], as for [body] of [FetchRequest]: a
    number that is not finite is written [null] and a negative zero
    [0]. *)
Record NextResponse := {
  response_status : nat;
  response_body : Json.value
}.

Inductive event :=
| Fetch (r : FetchRequest)
| ConsoleError.

(** A handler computation: it appends to the log of events and returns or
    throws. *)
Definition M (A : Type) : Type := list event -> Exn.result A * list event.

Definition ret {A} (a : A) : M A := fun log => (inr a, log).

Definition throw {A} (e : Exn.thrown) : M A := fun log => (inl e, log).

Definition bind {A B} (m : M A) (k : A -> M B) : M B :=
  fun log =>
    match m log with
    | (inr a, log') => k a log'
    | (inl e, log') => (inl e, log')
    end.

Definition lift {A} (r : Exn.result A) : M A :=
  match r with inr a => ret a | inl e => throw e end.

Definition emit (ev : event) : M unit := fun log => (inr tt, log ++ [ev]).

(** [try { m } catch (error) { handler }]. *)
Definition try_catch {A} (m : M A) (handler : Exn.thrown -> M A) : M A :=
  fun log =>
    match m log with
    | (inr a, log') => (inr a, log')
    | (inl e, log') => handler e log'
    end.

Notation "x <- m ;; k" := (bind m (fun x => k))
  (at level 61, m at next level, right associativity).

(** [NextResponse.json(data, { status })]: the response that holds [data]
    as the value to serialise.  The [Response] constructor underneath
    refuses a status outside 200..599 and a body on a null-body status. *)
Definition NextResponse_json (data : Json.value) (st : nat) : M NextResponse :=
  if negb ((200 <=? st) && (st <=? 599)) then
    throw (Exn.ErrorObject (lit "status out of range"))
  else if (st =? 204) || (st =? 205) || (st =? 304) then
    throw (Exn.ErrorObject (lit "null body status"))
  else ret {| response_status := st; response_body := data |}.

Definition error_body (v : Json.value) : Json.value :=
  Json.Object [(lit "error", v)].

Section Handler.

(** The network and the FastAPI back end behind [fetch]. *)
Variable backend : FetchRequest -> Exn.result BackendResponse.

Definition fetch (r : FetchRequest) : M BackendResponse :=
  _ <- emit (Fetch r) ;; lift (backend r).

(** The body of the [try] block. *)
Definition POST_try (request : NextRequest) : M NextResponse :=
  body <- lift (request_json request) ;;
  url <- lift (Json.property (lit "url") body) ;;
  if negb (Json.truthy url) then
    NextResponse_json (error_body (Json.Str (lit "URL is required"))) 400
  else
    response <- fetch {| endpoint := lit "http://localhost:8000/api/clone/stream";
                         method := lit "POST";
                         headers := [(lit "Content-Type", lit "application/json")];
                         body := Json.Object
                                   [(lit "url",
                                     match url with Some v => v | None => Json.Null end)] |} ;;
    if negb (ok response) then
      errorData <- lift (json response) ;;
      detail <- lift (Json.property (lit "detail") errorData) ;;
      NextResponse_json
        (error_body (match detail with
                     | Some v => if Json.truthy detail then v
                                 else Json.Str (lit "Failed to clone website")
                     | None => Json.Str (lit "Failed to clone website")
                     end))
        (status response)
    else
      data <- lift (json response) ;;
      NextResponse_json data 200.

(** The handler. *)
Definition POST (request : NextRequest) : M NextResponse :=
  try_catch (POST_try request)
    (fun _ =>
       _ <- emit ConsoleError ;;
       NextResponse_json (error_body (Json.Str (lit "Internal server error"))) 500).

(** The response of one call and the requests it forwarded. *)
Definition respond (request : NextRequest) : Exn.result NextResponse :=
  fst (POST request []).

Definition forwarded (request : NextRequest) : list FetchRequest :=
  flat_map (fun ev => match ev with Fetch r => [r] | ConsoleError => [] end)
           (snd (POST request [])).

End Handler.

(** A JSON body that lacks a truthy [url] field: it is no object with a
    member [url], or that member is falsy. *)
Definition lacks_truthy_url (body : Json.value) : bool :=
  match body with
  | Json.Object ms => negb (Json.truthy (Json.member (lit "url") ms))
  | _ => true
  end.


Definition bad_request : NextResponse :=
  {| response_status := 400;
     response_body := error_body (Json.Str (lit "URL is required")) |}.

Definition internal_error : NextResponse :=
  {| response_status := 500;
     response_body := error_body (Json.Str (lit "Internal server error")) |}.

End Route.

(* ===================================================================== *)
(** ** The result view: [CloneResult] *)
(* ===================================================================== *)

Module CloneResult.

Import JS.

(** The two [useState] cells of the component, with their initial values. *)
Record state := {
  processedHtml : str;
  htmlError : option str
}.

Definition initial : state := {| processedHtml := []; htmlError := None |}.

Definition setProcessedHtml (v : str) (s : state) : state :=
  {| processedHtml := v; htmlError := htmlError s |}.

Definition setHtmlError (v : option str) (s : state) : state :=
  {| processedHtml := processedHtml s; htmlError := v |}.

(** [x?.length || 0]. *)
Definition opt_length (x : option str) : nat :=
  match x with Some s => length s | None => 0 end.

(** The document shown when the extracted content is not valid HTML: the
    template literal of the source, its interpolations in place. *)
Definition invalid_document (result : Home.CloneResponse) (extractedHtml : str) : str :=
  lit "
          <html>
            <body style=`font-family: Arial, sans-serif; padding: 20px; background: #f5f5f5;`>
              <div style=`background: white; padding: 20px; border-radius: 8px; box-shadow: 0 2px 4px rgba(0,0,0,0.1);`>
                <h2 style=`color: #e53e3e; margin-top: 0;`>"
  ++ [9888; 65039]%N
  ++ lit " HTML Processing Error</h2>
                <p>The cloned content doesn't appear to be valid HTML. Raw content:</p>
                <pre style=`background: #f7fafc; padding: 10px; border-radius: 4px; overflow: auto; white-space: pre-wrap; max-height: 300px;`>"
  ++ substring0 1000 extractedHtml
  ++ (if 1000 <? length extractedHtml then lit "..." else [])
  ++ lit "</pre>
                <div style=`margin-top: 20px;`>
                  <strong>Debug Info:</strong>
                  <ul>
                    <li>Original length: "
  ++ of_nat (opt_length (Home.clone_html result))
  ++ lit "</li>
                    <li>Extracted length: "
  ++ of_nat (length extractedHtml)
  ++ lit "</li>
                    <li>Starts with: "
  ++ substring0 50 extractedHtml
  ++ lit "...</li>
                  </ul>
                </div>
                <div style=`background: #fff3cd; padding: 15px; border-radius: 4px; margin-top: 15px; border-left: 4px solid #ffc107;`>
                  <h3 style=`margin-top: 0; color: #856404;`>"
  ++ [55357; 56481]%N
  ++ lit " Troubleshooting Tips</h3>
                  <p>This usually indicates the AI had difficulty processing this specific website. Try:</p>
                  <ul>
                    <li>Trying a different website with more static content</li>
                    <li>Checking if the website requires authentication</li>
                    <li>Downloading the HTML file to see the actual content</li>
                  </ul>
                </div>
              </div>
            </body>
          </html>
        ".

(** The document shown when processing threw. *)
Definition failure_document (result : Home.CloneResponse) (error : Exn.thrown) : str :=
  lit "
        <html>
          <body style=`font-family: Arial, sans-serif; padding: 20px;`>
            <h2 style=`color: #e53e3e;`>Error processing HTML content</h2>
            <p>There was an error processing the cloned HTML content: "
  ++ Exn.message_or (lit "Unknown error") error
  ++ lit "</p>
            <p>Original content length: "
  ++ of_nat (opt_length (Home.clone_html result))
  ++ lit "</p>
            <div style=`background: #f8d7da; padding: 15px; border-radius: 4px; margin-top: 15px; border-left: 4px solid #dc3545;`>
              <h3 style=`margin-top: 0; color: #721c24;`>"
  ++ [55357; 56615]%N
  ++ lit " What you can do:</h3>
              <ul>
                <li>Check the browser console for more details</li>
                <li>Try cloning a different website</li>
                <li>Download the HTML file to inspect it manually</li>
                <li>Report this issue if it persists</li>
              </ul>
            </div>
          </body>
        </html>
      ".

Section Effect.

(** The helpers of [lib/utils] that the effect calls.  Either may throw:
    the effect runs them inside [try]. *)
Variable extractHtmlContent : option str -> Exn.result str.
Variable isValidHtml : str -> Exn.result bool.

(** The body of the [useEffect] on [result.clone_html]. *)
Definition processEffect (result : Home.CloneResponse) (s : state) : state :=
  match extractHtmlContent (Home.clone_html result) with
  | inl error =>
      setProcessedHtml (failure_document result error)
        (setHtmlError (Some (lit "Failed to process HTML content")) s)
  | inr extractedHtml =>
      match isValidHtml extractedHtml with
      | inl error =>
          setProcessedHtml (failure_document result error)
            (setHtmlError (Some (lit "Failed to process HTML content")) s)
      | inr false =>
          setProcessedHtml (invalid_document result extractedHtml)
            (setHtmlError
               (Some (lit "The cloned content doesn't appear to be valid HTML")) s)
      | inr true =>
          setHtmlError None (setProcessedHtml extractedHtml s)
      end
  end.


End Effect.

(** *** The content check of the preview's [onLoad] *)

(** An element of the loaded document, as the handler reads it. *)
Record Element := {
  tagName : str;
  textContent : option str
}.

Record Body := {
  innerHTML : str;
  body_textContent : option str
}.

(** The document of the iframe: its body and its elements in document
    order. *)
Record Document := {
  body : option Body;
  elements : list Element
}.

(** [toLowerCase] on a tag name.  Code units outside ASCII are left as
    they are; none of them lower-cases to a letter of a name compared
    here. *)
Definition toLowerCase (s : str) : str := map lowerASCII s.

Definition meaningful_tags : list str :=
  map lit ["p"; "h1"; "h2"; "h3"; "h4"; "h5"; "h6"; "div"; "span"; "img"; "a";
           "button"; "nav"; "main"; "section"; "article"]%string.

(** [iframeDoc.querySelectorAll('p, h1, ..., article')]: type selectors
    match the tag name whatever its case. *)
Definition querySelectorAll (doc : Document) : list Element :=
  filter (fun el => existsb (Json.str_eqb (toLowerCase (tagName el))) meaningful_tags)
         (elements doc).

(** [el.textContent?.trim() || el.tagName.toLowerCase() === 'img'], as a
    condition. *)
Definition visible (el : Element) : bool :=
  match textContent el with
  | Some t => truthy (trim t)
  | None => false
  end || Json.str_eqb (toLowerCase (tagName el)) (lit "img").

Definition visibleElements (doc : Document) : list Element :=
  filter visible (querySelectorAll doc).

(** [iframeDoc.body?.textContent], or the empty string when that is falsy. *)
Definition bodyText (doc : Document) : str :=
  match body doc with
  | Some b => match body_textContent b with
              | Some t => if truthy t then t else []
              | None => []
              end
  | None => []
  end.

(** [bodyText.length < 50 || visibleElements.length < 5]. *)
Definition minimal_content (doc : Document) : bool :=
  (length (bodyText doc) <? 50) || (List.length (visibleElements doc) <? 5).

Definition minimal_content_message (doc : Document) : str :=
  lit "Preview shows minimal content (" ++ of_nat (length (bodyText doc))
  ++ lit " characters, " ++ of_nat (List.length (visibleElements doc))
  ++ lit " elements). The AI may have generated a mostly empty page. Check the downloaded file for the actual content.".

(** The [onLoad] handler of the preview.  [frame] is the outcome of
    [iframe.contentDocument || iframe.contentWindow?.document]: it may
    throw, or give no document. *)
Definition onLoad (frame : Exn.result (option Document)) (s : state) : state :=
  match frame with
  | inr (Some iframeDoc) =>
      if minimal_content iframeDoc
      then setHtmlError (Some (minimal_content_message iframeDoc)) s
      else s
  | inr None => s
  | inl _ => s
  end.

(** A document with its full structure: it has a body. *)
Definition full_structure (doc : Document) : bool :=
  match body doc with Some _ => true | None => false end.

End CloneResult.

(* ===================================================================== *)
(** ** The extraction and regeneration pipeline *)
(* ===================================================================== *)

Module Pipeline.

(** The code of the five components (capture, consolidation, prompt
    assembly, generation, validation) is the Python back end behind
    [/api/clone/stream], which is not among the sources.  Every definition
    of this module is modelled from the design spec and cites its section.
    The strings of the back end are [string] here. *)

(** Modelled from the spec: the double quote of an attribute, for the text
    of the skeleton. *)
Definition dq : string := String (ascii_of_nat 34) EmptyString.

(** Modelled from the spec: the line break between the parts of a bundle's
    text. *)
Definition newline : string := String (ascii_of_nat 10) EmptyString.

(** Modelled from the spec: the decimal numeral of a class identifier. *)
Definition decimal (n : nat) : string := NilZero.string_of_uint (Nat.to_uint n).

(** Modelled from the spec: "appears verbatim in" (section 4.5): substring
    test. *)
Definition contains (needle hay : string) : bool :=
  match String.index 0 needle hay with Some _ => true | None => false end.

(** *** Data model *)

(** Modelled from the spec: the kind tag of an AssetRef (section 3); the
    back end that declares it is not among the sources. *)
Inductive AssetKind := Image | Font | Stylesheet.

(** Modelled from the spec: AssetRef, a URL plus a kind tag (section 3). *)
Record AssetRef := {
  url : string;
  kind : AssetKind
}.

(** Modelled from the spec: equality of kind tags, for the ordered set of
    AssetRef. *)
Definition AssetKind_eqb (a b : AssetKind) : bool :=
  match a, b with
  | Image, Image | Font, Font | Stylesheet, Stylesheet => true
  | _, _ => false
  end.

(** Modelled from the spec: equality of asset references, for the ordered
    set of AssetRef (section 3). *)
Definition AssetRef_eqb (a b : AssetRef) : bool :=
  String.eqb (url a) (url b) && AssetKind_eqb (kind a) (kind b).

(** Modelled from the spec: the resolved computed style properties of a
    node, name and value, in cascade order (section 3). *)
Definition StyleProps := list (string * string).

(** Modelled from the spec: what a StyleNode records of its own element
    (section 3): tag role, advisory geometry (width and height),
    text, computed properties and asset attachments. *)
Record NodeInfo := {
  tag : string;
  geometry : option (nat * nat);
  text : string;
  props : StyleProps;
  node_assets : list AssetRef
}.

(** Modelled from the spec: StyleNode, an owned tree without cycles
    (section 3). *)
Inductive StyleNode :=
| Node (info : NodeInfo) (children : list StyleNode).

(** Modelled from the spec: VisualManifest (section 3). *)
Record VisualManifest := {
  root : StyleNode;
  title : string;
  viewport : nat * nat;
  stylesheets : list string;
  assets : list AssetRef
}.

(** Modelled from the spec: the asset attachments of a tree, in document
    order. *)
Fixpoint tree_assets (n : StyleNode) : list AssetRef :=
  match n with
  | Node i kids => node_assets i ++ flat_map tree_assets kids
  end.

(** Modelled from the spec: the nodes of a tree, in document order. *)
Fixpoint preorder (n : StyleNode) : list NodeInfo :=
  match n with
  | Node i kids => i :: flat_map preorder kids
  end.

(** *** URLs *)

(** Modelled from the spec: a letter, the first character of a URL scheme.
    *)
Definition is_alpha (a : ascii) : bool :=
  let n := nat_of_ascii a in
  (65 <=? n) && (n <=? 90) || (97 <=? n) && (n <=? 122).

(** Modelled from the spec: a digit of a URL scheme. *)
Definition is_digit (a : ascii) : bool :=
  let n := nat_of_ascii a in (48 <=? n) && (n <=? 57).

(** Modelled from the spec: a character of a URL scheme after the first. *)
Definition is_scheme_char (a : ascii) : bool :=
  is_alpha a || is_digit a || Ascii.eqb a "+" || Ascii.eqb a "-" || Ascii.eqb a ".".

(** Modelled from the spec: read scheme characters up to the first colon:
    the scheme read and what follows the colon. *)
Fixpoint scheme_tail (s : string) : option (string * string) :=
  match s with
  | EmptyString => None
  | String a s' =>
      if Ascii.eqb a ":" then Some (EmptyString, s')
      else if is_scheme_char a then
        match scheme_tail s' with
        | Some (sch, rest) => Some (String a sch, rest)
        | None => None
        end
      else None
  end.

(** Modelled from the spec: a URL split into its scheme and the rest.  A
    scheme is a letter followed by letters, digits, [+], [-] or [.], and
    ends at a colon. *)
Definition split_scheme (s : string) : option (string * string) :=
  match s with
  | EmptyString => None
  | String a _ => if is_alpha a then scheme_tail s else None
  end.

(** Modelled from the spec: "absolute URL" (sections 3 and 8): the URL
    carries its scheme.  A relative path and a protocol-relative URL
    ([//host/...]) carry none. *)
Definition is_absolute (u : string) : bool :=
  match split_scheme u with Some _ => true | None => false end.

(** Modelled from the spec: a protocol-relative URL (section 3) begins with
    two slashes. *)
Definition is_protocol_relative (u : string) : bool := String.prefix "//" u.

(** Modelled from the spec: the longest prefix without the character [c],
    and what follows it. *)
Fixpoint break_at (c : ascii) (s : string) : string * string :=
  match s with
  | EmptyString => (EmptyString, EmptyString)
  | String a s' =>
      if Ascii.eqb a c then (EmptyString, s)
      else let (l, r) := break_at c s' in (String a l, r)
  end.

(** Modelled from the spec: the authority of a base (with its two slashes)
    and its path, query and fragment dropped. *)
Definition authority_path (rest : string) : string * string :=
  let rest := fst (break_at "#" (fst (break_at "?" rest))) in
  if String.prefix "//" rest then
    let (auth, path) := break_at "/" (String.substring 2 (String.length rest - 2) rest) in
    (("//" ++ auth)%string, path)
  else (EmptyString, rest).

(** Modelled from the spec: a path up to its last slash; [/] for an empty
    path. *)
Fixpoint directory (p : string) : string :=
  match p with
  | EmptyString => "/"%string
  | String a p' =>
      if contains "/" p' then String a (directory p')
      else if Ascii.eqb a "/" then "/"%string else EmptyString
  end.

(** Modelled from the spec: "every src / href / url(...) reference
    encountered is rewritten to an absolute URL using the page's resolved
    base at capture time" (section 4.1). *)
Definition absolutize (base ref : string) : string :=
  if is_absolute ref then ref
  else
    match split_scheme base with
    | None => ref
    | Some (sch, rest) =>
        let (auth, path) := authority_path rest in
        if String.prefix "//" ref then (sch ++ ":" ++ ref)%string
        else if String.prefix "/" ref then (sch ++ ":" ++ auth ++ ref)%string
        else (sch ++ ":" ++ auth ++ directory path ++ ref)%string
    end.

(** *** Capture Engine *)

(** Modelled from the spec: what the renderer reports of one element: its
    layout box, whether it is [display:none], its computed style, its text
    and the references it carries, as written in the page (section 4.1,
    and the capture boundary of section 6). *)
Record ElementInfo := {
  el_tag : string;
  el_width : nat;
  el_height : nat;
  el_display_none : bool;
  el_computed : StyleProps;
  el_text : string;
  el_refs : list (string * AssetKind)
}.

(** Modelled from the spec: the rendered DOM that the renderer hands over, a
    tree (section 6). *)
Inductive Dom :=
| El (e : ElementInfo) (children : list Dom).

(** Modelled from the spec: what [render] returns (section 6): the DOM and
    its resolved styles, with the resolved base of the page, its title, the
    viewport and the raw stylesheet blocks (sections 3 and 4.1). *)
Record RenderedPage := {
  base : string;
  page_title : string;
  page_viewport : nat * nat;
  page_stylesheets : list string;
  dom : Dom
}.

(** Modelled from the spec: the failures of the Capture Engine
    (sections 4.1 and 7). *)
Inductive CaptureError := NavigationError | BlockedError | RenderTimeoutError.

(** Modelled from the spec: "elements with zero rendered area or
    display:none are pruned" (section 4.1). *)
Definition pruned (e : ElementInfo) : bool :=
  el_display_none e || (el_width e * el_height e =? 0).

(** Modelled from the spec: "all AssetRef URLs are absolute at creation
    time" (section 3): an AssetRef is created from a reference of the page
    by resolving it against the base. *)
Definition make_asset (base : string) (r : string * AssetKind) : AssetRef :=
  {| url := absolutize base (fst r); kind := snd r |}.

(** Modelled from the spec: the StyleNode information recorded for an
    element that is kept (section 4.1). *)
Definition capture_info (base : string) (e : ElementInfo) : NodeInfo :=
  {| tag := el_tag e;
     geometry := Some (el_width e, el_height e);
     text := el_text e;
     props := el_computed e;
     node_assets := map (make_asset base) (el_refs e) |}.

(** Modelled from the spec: the walk of the rendered DOM: a pruned element
    gives nothing, with its subtree. *)
Fixpoint walk (base : string) (d : Dom) : list StyleNode :=
  match d with
  | El e kids =>
      if pruned e then []
      else [Node (capture_info base e) (flat_map (walk base) kids)]
  end.

(** Modelled from the spec: the ordered set of a list: first occurrences, in
    order. *)
Fixpoint uniq (seen l : list AssetRef) : list AssetRef :=
  match l with
  | [] => []
  | a :: l' =>
      if existsb (AssetRef_eqb a) seen then uniq seen l'
      else a :: uniq (a :: seen) l'
  end.

(** Modelled from the spec: the Capture Engine (section 4.1).  [render]
    is the headless renderer of the capture boundary, with its hard
    timeout; the document element is the root of the manifest. *)
Definition capture
    (render : string -> nat -> CaptureError + RenderedPage) (timeout : nat)
    (target : string) : CaptureError + VisualManifest :=
  match render target timeout with
  | inl e => inl e
  | inr page =>
      match dom page with
      | El e kids =>
          let r := Node (capture_info (base page) e)
                        (flat_map (walk (base page)) kids) in
          inr {| root := r;
                 title := page_title page;
                 viewport := page_viewport page;
                 stylesheets := page_stylesheets page;
                 assets := uniq [] (tree_assets r) |}
      end
  end.

(** *** Consolidator *)

(** Modelled from the spec: an element of the HTML skeleton: tag, class,
    text, links and nested elements (section 4.2). *)
Inductive Skeleton :=
| Elem (tg : string) (class : nat) (txt : string) (links : list AssetRef)
       (children : list Skeleton).

(** Modelled from the spec: a rule of the bundle's stylesheet, keyed by a
    synthetic class (section 4.2). *)
Record CssRule := {
  rule_class : nat;
  declarations : StyleProps
}.

(** Modelled from the spec: ConsolidatedBundle (section 3).  The
    stylesheet and the skeleton are kept structured; [css_text] and
    [skeleton_html] below give their text. *)
Record ConsolidatedBundle := {
  css : list CssRule;
  skeleton : Skeleton;
  bundle_assets : list AssetRef
}.

(** Modelled from the spec: the failure of the Consolidator (sections 4.2
    and 7). *)
Inductive ConsolidateError := EmptyManifestError.

(** Modelled from the spec: identity of two declarations, for the
    deduplication of section 4.2. *)
Definition prop_eqb (a b : string * string) : bool :=
  String.eqb (fst a) (fst b) && String.eqb (snd a) (snd b).

(** Modelled from the spec: "identical property sets" (section 4.2). *)
Fixpoint props_eqb (a b : StyleProps) : bool :=
  match a, b with
  | [], [] => true
  | x :: a', y :: b' => prop_eqb x y && props_eqb a' b'
  | _, _ => false
  end.

(** Modelled from the spec: "conflicts resolved by last-writer-wins
    following original cascade order" (section 3): of two declarations of
    one property the later stays. *)
Fixpoint normalize (ps : StyleProps) : StyleProps :=
  match ps with
  | [] => []
  | (k, v) :: ps' =>
      if existsb (fun kv => String.eqb k (fst kv)) ps' then normalize ps'
      else (k, v) :: normalize ps'
  end.

(** Modelled from the spec: the position of a property set among the rules
    emitted so far. *)
Fixpoint index_of (p : StyleProps) (table : list StyleProps) : option nat :=
  match table with
  | [] => None
  | q :: table' =>
      if props_eqb p q then Some 0
      else option_map S (index_of p table')
  end.

(** Modelled from the spec: "deduplicate identical property sets across
    nodes into shared classes" (section 4.2): a property set met before
    keeps its class, a new one takes the next class and its rule is
    emitted after those emitted so far. *)
Definition class_for (p : StyleProps) (table : list StyleProps)
  : nat * list StyleProps :=
  match index_of p table with
  | Some i => (i, table)
  | None => (List.length table, table ++ [p])
  end.

(** Modelled from the spec: the serialisation of the StyleNode tree into
    the skeleton, in document order, threading the rules emitted so far
    (section 4.2). *)
Fixpoint consolidate_node (n : StyleNode) (table : list StyleProps)
  : Skeleton * list StyleProps :=
  match n with
  | Node i kids =>
      let (c, table1) := class_for (normalize (props i)) table in
      let (kids', table2) :=
        (fix go (l : list StyleNode) (t : list StyleProps)
           : list Skeleton * list StyleProps :=
           match l with
           | [] => ([], t)
           | k :: l' =>
               let (k', t1) := consolidate_node k t in
               let (r, t2) := go l' t1 in
               (k' :: r, t2)
           end) kids table1 in
      (Elem (tag i) c (text i) (node_assets i) kids', table2)
  end.

(** Modelled from the spec: the same walk over a list of siblings. *)
Fixpoint consolidate_list (l : list StyleNode) (t : list StyleProps)
  : list Skeleton * list StyleProps :=
  match l with
  | [] => ([], t)
  | k :: l' =>
      let (k', t1) := consolidate_node k t in
      let (r, t2) := consolidate_list l' t1 in
      (k' :: r, t2)
  end.

(** Modelled from the spec: one rule per emitted property set, keyed by its
    class, in the order of emission (section 4.2). *)
Fixpoint number_rules (from : nat) (table : list StyleProps) : list CssRule :=
  match table with
  | [] => []
  | p :: table' =>
      {| rule_class := from; declarations := p |} :: number_rules (S from) table'
  end.

(** Modelled from the spec: a visually significant node "has layout box,
    non-zero size, or carries background/image content" (section 4.1). *)
Definition significant (i : NodeInfo) : bool :=
  match geometry i with
  | Some (w, h) => negb (w * h =? 0)
  | None => false
  end
  || negb (match node_assets i with [] => true | _ => false end).

(** Modelled from the spec: the Consolidator (section 4.2); it fails with
    EmptyManifestError when the manifest has no visually significant
    node. *)
Definition consolidate (m : VisualManifest) : ConsolidateError + ConsolidatedBundle :=
  if existsb significant (preorder (root m)) then
    let (sk, table) := consolidate_node (root m) [] in
    inr {| css := number_rules 0 table;
           skeleton := sk;
           bundle_assets := assets m |}
  else inl EmptyManifestError.

(** *** Text of a bundle *)

(** Modelled from the spec: the "synthetic, collision-free class identifier"
    of section 4.2: the letter c and the number of the class. *)
Definition class_name (c : nat) : string := ("c" ++ decimal c)%string.

(** Modelled from the spec: the text of one declaration of a rule. *)
Definition declaration_text (kv : string * string) : string :=
  (fst kv ++ ": " ++ snd kv ++ ";")%string.

(** Modelled from the spec: the text of one rule of the stylesheet. *)
Definition rule_text (r : CssRule) : string :=
  ("." ++ class_name (rule_class r) ++ " { "
   ++ String.concat " " (map declaration_text (declarations r)) ++ " }")%string.

(** Modelled from the spec: the "one stylesheet block" of section 4.2: the
    rules in order, one per line. *)
Definition css_text (rules : list CssRule) : string :=
  String.concat newline (map rule_text rules).

(** Modelled from the spec: the attribute that carries an asset URL in the
    skeleton. *)
Definition link_text (a : AssetRef) : string :=
  match kind a with
  | Image => (" src=" ++ dq ++ url a ++ dq)%string
  | Font | Stylesheet => (" href=" ++ dq ++ url a ++ dq)%string
  end.

(** Modelled from the spec: the text of the HTML skeleton, "preserving tag
    names, text content, and structural nesting" (section 4.2). *)
Fixpoint skeleton_html (s : Skeleton) : string :=
  match s with
  | Elem tg c txt links kids =>
      ("<" ++ tg ++ " class=" ++ dq ++ class_name c ++ dq
       ++ String.concat "" (map link_text links) ++ ">"
       ++ txt ++ String.concat "" (map skeleton_html kids)
       ++ "</" ++ tg ++ ">")%string
  end.

(** Modelled from the spec: one line of the asset list of a serialised
    bundle. *)
Definition asset_line (a : AssetRef) : string :=
  (match kind a with
   | Image => "image "
   | Font => "font "
   | Stylesheet => "stylesheet "
   end ++ url a)%string.

(** Modelled from the spec: the bundle as text: stylesheet, skeleton, asset
    list. *)
Definition serialize (b : ConsolidatedBundle) : string :=
  (css_text (css b) ++ newline ++ skeleton_html (skeleton b) ++ newline
   ++ String.concat newline (map asset_line (bundle_assets b)))%string.

(** Modelled from the spec: the deterministic fallback artifact, "the
    Consolidator's skeleton plus bundle CSS inlined" (sections 4.4 and
    8): a style block holding the stylesheet, then the skeleton. *)
Definition fallback_html (b : ConsolidatedBundle) : string :=
  ("<style>" ++ css_text (css b) ++ "</style>" ++ skeleton_html (skeleton b))%string.

(** *** Prompt Assembler *)

(** Modelled from the spec: GenerationRequest (section 3): the
    instructions, the bundle serialised within the size budget, and the
    generation parameters. *)
Record GenerationRequest := {
  instructions : string;
  payload : string;
  temperature : nat;
  max_tokens : nat
}.

(** Modelled from the spec: the failure of the Prompt Assembler (sections
    4.3 and 7). *)
Inductive AssembleError := BundleTooLargeError.

(** Modelled from the spec: the configuration of the Prompt Assembler
    (section 4.3).  The spec leaves to configuration which asset
    references are decorative, which subtrees are low in information and
    how deep a subtree must be to be collapsed (section 9). *)
Record AssemblerConfig := {
  budget : nat;
  decorative : AssetRef -> bool;
  low_information : Skeleton -> bool;
  collapse_depth : nat;
  system_instructions : string;
  default_temperature : nat;
  default_max_tokens : nat
}.

(** Modelled from the spec: dropping the decorative asset references carried
    by the skeleton (section 4.3). *)
Fixpoint drop_links (dec : AssetRef -> bool) (s : Skeleton) : Skeleton :=
  match s with
  | Elem tg c txt links kids =>
      Elem tg c txt (filter (fun a => negb (dec a)) links) (map (drop_links dec) kids)
  end.

(** Modelled from the spec: first step of the truncation, "drop
    decorative asset references" (section 4.3). *)
Definition drop_decorative (cfg : AssemblerConfig) (b : ConsolidatedBundle)
  : ConsolidatedBundle :=
  {| css := css b;
     skeleton := drop_links (decorative cfg) (skeleton b);
     bundle_assets := filter (fun a => negb (decorative cfg a)) (bundle_assets b) |}.

(** Modelled from the spec: [collapse low keep s]: the children of [s] and
    of its descendants down to [keep] levels stay; deeper, a child that is
    low in information goes with its subtree. *)
Fixpoint collapse (low : Skeleton -> bool) (keep : nat) (s : Skeleton) : Skeleton :=
  match s with
  | Elem tg c txt links kids =>
      match keep with
      | S keep' => Elem tg c txt links (map (collapse low keep') kids)
      | 0 =>
          Elem tg c txt links
            ((fix go (l : list Skeleton) : list Skeleton :=
                match l with
                | [] => []
                | k :: l' => if low k then go l' else collapse low 0 k :: go l'
                end) kids)
      end
  end.

(** Modelled from the spec: second step of the truncation, "collapse
    deeply nested low-information subtrees", which never drops a top-level
    node nor a declaration of the stylesheet (section 4.3).  The children
    of the root are the top-level nodes: they are kept whatever the
    configured depth. *)
Definition collapse_deep (cfg : AssemblerConfig) (b : ConsolidatedBundle)
  : ConsolidatedBundle :=
  {| css := css b;
     skeleton := collapse (low_information cfg) (S (collapse_depth cfg)) (skeleton b);
     bundle_assets := bundle_assets b |}.

(** Modelled from the spec: the "maximal truncation" of section 4.3: both
    steps applied. *)
Definition maximal_truncation (cfg : AssemblerConfig) (b : ConsolidatedBundle)
  : ConsolidatedBundle :=
  collapse_deep cfg (drop_decorative cfg b).

(** Modelled from the spec: the bundle and its truncations, in the fixed
    priority order. *)
Definition truncations (cfg : AssemblerConfig) (b : ConsolidatedBundle)
  : list ConsolidatedBundle :=
  [b; drop_decorative cfg b; maximal_truncation cfg b].

(** Modelled from the spec: the size that the budget bounds: the length of
    the bundle's text (section 4.3). *)
Definition size (b : ConsolidatedBundle) : nat := String.length (serialize b).

(** Modelled from the spec: the bundle is within the size budget (section
    4.3). *)
Definition fits (cfg : AssemblerConfig) (b : ConsolidatedBundle) : bool :=
  size b <=? budget cfg.

(** Modelled from the spec: the request built from a bundle that fits
    (sections 3 and 4.3). *)
Definition request_of (cfg : AssemblerConfig) (b : ConsolidatedBundle)
  : GenerationRequest :=
  {| instructions := system_instructions cfg;
     payload := serialize b;
     temperature := default_temperature cfg;
     max_tokens := default_max_tokens cfg |}.

(** Modelled from the spec: the Prompt Assembler (section 4.3): the
    least truncated bundle that fits the budget, BundleTooLargeError when
    none does. *)
Definition assemble (cfg : AssemblerConfig) (b : ConsolidatedBundle)
  : AssembleError + GenerationRequest :=
  match find (fits cfg) (truncations cfg b) with
  | Some b' => inr (request_of cfg b')
  | None => inl BundleTooLargeError
  end.

(** Modelled from the spec: the top-level layout nodes of a skeleton: the
    root and its children, each by tag, class and text. *)
Definition shallow (s : Skeleton) : string * nat * string :=
  match s with Elem tg c txt _ _ => (tg, c, txt) end.

(** Modelled from the spec: the top-level layout-defining nodes (section
    4.3): the root of the skeleton and its children. *)
Definition top_level (s : Skeleton) : list (string * nat * string) :=
  match s with Elem _ _ _ _ kids => shallow s :: map shallow kids end.

(** *** Validator *)

(** Modelled from the spec: what parsing a candidate gives the Validator
    (section 4.5): whether it has an openable root and a body, its
    visible text and its elements. *)
Record ParsedElement := {
  pe_tag : string;
  pe_text : string
}.

(** Modelled from the spec: a parsed candidate (section 4.5). *)
Record ParsedDocument := {
  has_root : bool;
  has_body : bool;
  visible_text : string;
  doc_elements : list ParsedElement
}.

(** Modelled from the spec: CandidateArtifact (section 3). *)
Record CandidateArtifact := {
  content : string;
  provider : string;
  attempt : nat;
  latency : nat
}.

(** Modelled from the spec: the thresholds of the Validator, the
    disallowed content markers and the asset fraction of strict mode,
    numerator and denominator (section 4.5). *)
Record ValidatorConfig := {
  min_text_length : nat;
  min_meaningful_elements : nat;
  disallowed_markers : list string;
  strict_asset_fraction : option (nat * nat)
}.

(** Modelled from the spec: the structured rejection reasons
    (section 4.5). *)
Inductive RejectionReason :=
| MalformedDocument
| TooLittleContent
| DisallowedContent
| AssetLoss.

(** Modelled from the spec: accept or reject (section 4.5). *)
Inductive Verdict :=
| Accept
| Reject (reason : RejectionReason).

(** Modelled from the spec: "meaningful elements (text-bearing or image
    elements)" (section 4.5). *)
Definition meaningful (e : ParsedElement) : bool :=
  negb (String.eqb (pe_text e) "") || String.eqb (pe_tag e) "img".

(** Modelled from the spec: the "count of meaningful elements" (section
    4.5). *)
Definition count_meaningful (d : ParsedDocument) : nat :=
  List.length (filter meaningful (doc_elements d)).

(** Modelled from the spec: first check of the Validator (section 4.5): the
    candidate parses, with an openable root and a body. *)
Definition well_formed (d : option ParsedDocument) : bool :=
  match d with
  | Some doc => has_root doc && has_body doc
  | None => false
  end.

(** Modelled from the spec: second check of the Validator (sections 4.5 and
    8): the visible text and the meaningful elements are not below their
    minimum. *)
Definition enough_content (cfg : ValidatorConfig) (d : option ParsedDocument) : bool :=
  match d with
  | Some doc =>
      (min_text_length cfg <=? String.length (visible_text doc))
      && (min_meaningful_elements cfg <=? count_meaningful doc)
  | None => false
  end.

(** Modelled from the spec: third check of the Validator (section 4.5): no
    disallowed content marker. *)
Definition no_markers (cfg : ValidatorConfig) (text : string) : bool :=
  negb (existsb (fun m => contains m text) (disallowed_markers cfg)).

(** Modelled from the spec: fourth check of the Validator, for strict mode
    (section 4.5): the configured fraction of the AssetRef URLs appears
    verbatim. *)
Definition assets_kept (cfg : ValidatorConfig) (refs : list AssetRef) (text : string)
  : bool :=
  match strict_asset_fraction cfg with
  | None => true
  | Some (num, den) =>
      num * List.length refs
      <=? den * List.length (filter (fun a => contains (url a) text) refs)
  end.

(** Modelled from the spec: the number of checks passed, for the score
    (section 4.5). *)
Definition count_true (l : list bool) : nat := List.length (filter (fun b => b) l).

(** Modelled from the spec: the Validator (section 4.5): the four
    checks in order, all of which must pass to accept, and a sufficiency
    score, here the number of checks passed.  [parse] is the HTML parser
    the back end relies on. *)
Definition validate (parse : string -> option ParsedDocument)
    (cfg : ValidatorConfig) (refs : list AssetRef) (text : string)
  : Verdict * nat :=
  let d := parse text in
  let c1 := well_formed d in
  let c2 := enough_content cfg d in
  let c3 := no_markers cfg text in
  let c4 := assets_kept cfg refs text in
  (if negb c1 then Reject MalformedDocument
   else if negb c2 then Reject TooLittleContent
   else if negb c3 then Reject DisallowedContent
   else if negb c4 then Reject AssetLoss
   else Accept,
   count_true [c1; c2; c3; c4]).

(** *** Generation Orchestrator *)

(** Modelled from the spec: the recoverable transport failures of a
    provider (sections 4.4 and 7). *)
Inductive ProviderTransportError := Timeout | RateLimit | AuthError.

(** Modelled from the spec: a provider, "a variant satisfying
    {invoke, identity}" (sections 6 and 9).  A provider is no function of
    the request alone: [invoke] also takes the number of calls made before
    this one in the run.  It returns the text and the latency. *)
Record Provider := {
  identity : string;
  invoke : GenerationRequest -> nat -> ProviderTransportError + (string * nat)
}.

(** Modelled from the spec: the retry and escalation policy (section 4.4):
    the attempt cap, the escalation ceiling, the level above which the
    request is reduced in scope, the base delay of the exponential
    backoff, and the instructions added at a level. *)
Record OrchestratorConfig := {
  attempt_cap : nat;
  escalation_ceiling : nat;
  reduce_threshold : nat;
  backoff_base : nat;
  emphasis : nat -> string;
  reduce_scope : string -> string
}.

(** Modelled from the spec: the state of the machine, "(provider index,
    escalation level, attempt count)" (section 9). *)
Record Machine := {
  provider_index : nat;
  escalation_level : nat;
  attempt_count : nat
}.

(** Modelled from the spec: the first provider at level 0 with no attempt
    made (section 4.4). *)
Definition initial_machine : Machine :=
  {| provider_index := 0; escalation_level := 0; attempt_count := 0 |}.

(** Modelled from the spec: what an attempt ends in. *)
Inductive Observation :=
| TransportFailed (e : ProviderTransportError)
| Rejected (reason : RejectionReason)
| Accepted (c : CandidateArtifact) (score : nat).

(** Modelled from the spec: what the Orchestrator returns (section 4.4): a
    candidate accepted by the Validator, or the signal of exhaustion. *)
Inductive OrchestratorResult :=
| Candidate (c : CandidateArtifact) (score : nat)
| GenerationExhaustedError.

(** Modelled from the spec: "advance to next configured provider at
    escalation_level 0" (section 4.4). *)
Definition next_provider (m : Machine) : Machine :=
  {| provider_index := S (provider_index m); escalation_level := 0; attempt_count := 0 |}.

(** Modelled from the spec: the pure transition function of the machine
    (sections 4.4 and 9).  A transport failure retries the same provider
    until the attempt cap is reached, then advances to the next provider at
    level 0; a rejection retries the same provider one level up until the
    ceiling, then advances; an accepted candidate ends the run. *)
Definition transition (cfg : OrchestratorConfig) (m : Machine) (o : Observation)
  : Machine + OrchestratorResult :=
  match o with
  | Accepted c score => inr (Candidate c score)
  | TransportFailed _ =>
      if S (attempt_count m) <? attempt_cap cfg then
        inl {| provider_index := provider_index m;
               escalation_level := escalation_level m;
               attempt_count := S (attempt_count m) |}
      else inl (next_provider m)
  | Rejected _ =>
      if escalation_level m <? escalation_ceiling cfg then
        inl {| provider_index := provider_index m;
               escalation_level := S (escalation_level m);
               attempt_count := attempt_count m |}
      else inl (next_provider m)
  end.

(** Modelled from the spec: the request of an attempt: the level adds
    its instructions and, above the threshold, reduces the scope
    (section 4.4). *)
Definition escalate (cfg : OrchestratorConfig) (level : nat) (req : GenerationRequest)
  : GenerationRequest :=
  {| instructions := (instructions req ++ emphasis cfg level)%string;
     payload := if reduce_threshold cfg <? level
                then reduce_scope cfg (payload req) else payload req;
     temperature := temperature req;
     max_tokens := max_tokens req |}.

(** Modelled from the spec: what a run does to the outside: invocations of
    providers, and waits (section 4.4). *)
Inductive Event :=
| Invoked (provider_identity : string) (level attempt_number : nat)
| Backoff (delay : nat).

(** Modelled from the spec: the number of provider invocations of a run
    (section 8). *)
Definition invocations (log : list Event) : nat :=
  List.length (filter (fun ev => match ev with Invoked _ _ _ => true | Backoff _ => false end)
                      log).

(** Modelled from the spec: what the run depends on besides the request. *)
Record Generation := {
  policy : OrchestratorConfig;
  providers : list Provider;
  parse_html : string -> option ParsedDocument;
  validator : ValidatorConfig;
  refs : list AssetRef
}.

(** Modelled from the spec: one attempt: invoke the provider, and validate
    what it returns. *)
Definition attempt_once (g : Generation) (req : GenerationRequest) (p : Provider)
    (m : Machine) (calls : nat) : Observation :=
  match invoke p (escalate (policy g) (escalation_level m) req) calls with
  | inl e => TransportFailed e
  | inr (text, ms) =>
      let c := {| content := text; provider := identity p;
                  attempt := attempt_count m; latency := ms |} in
      match validate (parse_html g) (validator g) (refs g) text with
      | (Accept, score) => Accepted c score
      | (Reject reason, _) => Rejected reason
      end
  end.

(** Modelled from the spec: the delay before retrying after a transport
    failure: exponential in the attempts made. *)
Definition backoff (cfg : OrchestratorConfig) (m m' : Machine) (o : Observation)
  : list Event :=
  match o with
  | TransportFailed _ =>
      if provider_index m' =? provider_index m
      then [Backoff (backoff_base cfg * 2 ^ attempt_count m)]
      else []
  | _ => []
  end.

(** Modelled from the spec: the run of the machine (section 4.4): a
    provider index past the last provider signals exhaustion.  [fuel]
    bounds the number of attempts. *)
Fixpoint run (g : Generation) (req : GenerationRequest) (fuel : nat)
    (m : Machine) (log : list Event) : option (OrchestratorResult * list Event) :=
  match fuel with
  | 0 => None
  | S fuel' =>
      match nth_error (providers g) (provider_index m) with
      | None => Some (GenerationExhaustedError, log)
      | Some p =>
          let o := attempt_once g req p m (invocations log) in
          let log1 := log ++ [Invoked (identity p) (escalation_level m) (attempt_count m)] in
          match transition (policy g) m o with
          | inr result => Some (result, log1)
          | inl m' => run g req fuel' m' (log1 ++ backoff (policy g) m m' o)
          end
      end
  end.

(** Modelled from the spec: attempts that a run can make at most, and one
    more step to see the end of the list of providers. *)
Definition attempts_bound (g : Generation) : nat :=
  S (List.length (providers g)
     * (Nat.max 1 (attempt_cap (policy g)) + escalation_ceiling (policy g))).

(** Modelled from the spec: the Generation Orchestrator (section 4.4).
    The bound on attempts is always enough (see [run_terminates]), so the
    last case never arises. *)
Definition orchestrate (g : Generation) (req : GenerationRequest)
  : OrchestratorResult * list Event :=
  match run g req (attempts_bound g) initial_machine [] with
  | Some r => r
  | None => (GenerationExhaustedError, [])
  end.

(** *** The pipeline *)

(** Modelled from the spec: the provenance flag of a CloneResult
    (section 3). *)
Inductive Provenance := Generated | Fallback.

(** Modelled from the spec: CloneResult (section 3). *)
Record CloneResult := {
  html : string;
  provenance : Provenance;
  validation_score : nat
}.

(** Modelled from the spec: the errors reported to the caller as failure
    (section 7). *)
Inductive FatalError :=
| CaptureFailed (e : CaptureError)
| EmptyManifest
| BundleTooLarge.

(** Modelled from the spec: the collaborators and the configuration of a
    pipeline. *)
Record Setup := {
  render : string -> nat -> CaptureError + RenderedPage;
  render_timeout : nat;
  assembler : AssemblerConfig;
  orchestrator : OrchestratorConfig;
  configured_providers : list Provider;
  html_parser : string -> option ParsedDocument;
  validator_config : ValidatorConfig
}.

(** Modelled from the spec: the generation of a pipeline: its providers and
    policy, and the Validator with the assets of the bundle (section 4.5).
    *)
Definition generation (s : Setup) (b : ConsolidatedBundle) : Generation :=
  {| policy := orchestrator s;
     providers := configured_providers s;
     parse_html := html_parser s;
     validator := validator_config s;
     refs := bundle_assets b |}.

(** Modelled from the spec: the terminal artifact after generation
    (sections 4.4 and 7): the accepted candidate, or on exhaustion the
    deterministic fallback built from the bundle. *)
Definition conclude (s : Setup) (b : ConsolidatedBundle) (r : OrchestratorResult)
  : CloneResult :=
  match r with
  | Candidate c score =>
      {| html := content c; provenance := Generated; validation_score := score |}
  | GenerationExhaustedError =>
      {| html := fallback_html b;
         provenance := Fallback;
         validation_score :=
           snd (validate (html_parser s) (validator_config s) (bundle_assets b)
                         (fallback_html b)) |}
  end.

(** Modelled from the spec: the pipeline of one clone request, stages in
    sequence (sections 2, 5 and 7).  The outer wall-clock deadline of
    section 5 is not modelled: it ends in the same fallback as
    exhaustion. *)
Definition clone (s : Setup) (target : string) : FatalError + CloneResult :=
  match capture (render s) (render_timeout s) target with
  | inl e => inl (CaptureFailed e)
  | inr manifest =>
      match consolidate manifest with
      | inl EmptyManifestError => inl EmptyManifest
      | inr bundle =>
          match assemble (assembler s) bundle with
          | inl BundleTooLargeError => inl BundleTooLarge
          | inr request =>
              inr (conclude s bundle (fst (orchestrate (generation s bundle) request)))
          end
      end
  end.

(** *** Properties stated of the pipeline *)

(** Modelled from the spec: an asset reference whose URL is absolute:
    neither relative nor protocol-relative. *)
Definition absolute_asset (a : AssetRef) : Prop :=
  is_absolute (url a) = true /\ is_protocol_relative (url a) = false.

(** Modelled from the spec: every provider answers every call with a
    transport error. *)
Definition all_fail_transport (ps : list Provider) : Prop :=
  forall p, In p ps ->
  forall req calls, exists e, invoke p req calls = inl e.

(** Modelled from the spec: emitting the rule of one more property set. *)
Definition emit (table : list StyleProps) (p : StyleProps) : list StyleProps :=
  snd (class_for p table).

(** Modelled from the spec: the rules of a tree in document order: node
    after node, the rule of each normalised property set that no earlier
    node had. *)
Definition rules_in_document_order (n : StyleNode) : list StyleProps :=
  fold_left emit (map (fun i => normalize (props i)) (preorder n)) [].

End Pipeline.

(* ===================================================================== *)
(** ** Sample inputs *)
(* ===================================================================== *)

(** Concrete requests, documents and pipelines, at which the theorems
    below are instantiated. *)
Module Sample.

Import Pipeline.

(** *** Front end *)

(** Stand-ins for the helpers of [lib/utils]: strip the surrounding white
    space; accept what begins with an angle bracket. *)
Definition extractHtmlContent (content : option JS.str) : Exn.result JS.str :=
  match content with
  | Some s => inr (JS.trim s)
  | None => inl (Exn.ErrorObject (JS.lit "content is undefined"))
  end.

Definition isValidHtml (content : JS.str) : Exn.result bool :=
  inr (JS.starts_with_ci (JS.lit "<") content).


Definition paragraph : JS.str :=
  JS.lit "This paragraph is the only element of the page, and it is long.".

(** A complete document whose body holds one long paragraph. *)
Definition sparse_document : CloneResult.Document :=
  {| CloneResult.body :=
       Some {| CloneResult.innerHTML := JS.lit "<p>" ++ paragraph ++ JS.lit "</p>";
               CloneResult.body_textContent := Some paragraph |};
     CloneResult.elements :=
       [ {| CloneResult.tagName := JS.lit "HTML"; CloneResult.textContent := Some paragraph |};
         {| CloneResult.tagName := JS.lit "HEAD"; CloneResult.textContent := Some [] |};
         {| CloneResult.tagName := JS.lit "BODY"; CloneResult.textContent := Some paragraph |};
         {| CloneResult.tagName := JS.lit "P"; CloneResult.textContent := Some paragraph |} ] |}.

Definition line : CloneResult.Element :=
  {| CloneResult.tagName := JS.lit "P"; CloneResult.textContent := Some (JS.lit "A line of text.") |}.

(** A document with five paragraphs and an image. *)
Definition rich_document : CloneResult.Document :=
  {| CloneResult.body :=
       Some {| CloneResult.innerHTML := [];
               CloneResult.body_textContent :=
                 Some (JS.lit "A line of text.A line of text.A line of text.A line of text.A line of text.") |};
     CloneResult.elements :=
       [ line; line; line; line; line;
         {| CloneResult.tagName := JS.lit "IMG"; CloneResult.textContent := Some [] |} ] |}.

(** *** Back end *)

Local Open Scope string_scope.

Definition target : string := "https://example.com/shop/index.html".

Definition heading : Dom :=
  El {| el_tag := "h1"; el_width := 800; el_height := 40; el_display_none := false;
        el_computed := [("color", "rgb(0, 0, 0)")]; el_text := "Shop";
        el_refs := [] |} [].

Definition picture : Dom :=
  El {| el_tag := "img"; el_width := 200; el_height := 100; el_display_none := false;
        el_computed := []; el_text := "";
        el_refs := [("img/logo.png", Image); ("//cdn.example.com/banner.png", Image);
                    ("/fonts/a.woff", Font)] |} [].

Definition hidden_box : Dom :=
  El {| el_tag := "div"; el_width := 10; el_height := 10; el_display_none := true;
        el_computed := []; el_text := "";
        el_refs := [("hidden.png", Image)] |} [].

Definition page : RenderedPage :=
  {| base := target;
     page_title := "Shop";
     page_viewport := (1280, 720);
     page_stylesheets := [];
     dom := El {| el_tag := "body"; el_width := 1280; el_height := 720;
                  el_display_none := false;
                  el_computed := [("background-image", "linear-gradient(red, blue)")];
                  el_text := ""; el_refs := [] |}
               [heading; picture; hidden_box] |}.

Definition renderer (u : string) (timeout : nat) : CaptureError + RenderedPage :=
  inr page.

Definition gradient_box : StyleNode :=
  Node {| tag := "div"; geometry := Some (100, 100); text := "";
          props := [("background-image", "linear-gradient(red, blue)")];
          node_assets := [] |} [].

Definition manifest : VisualManifest :=
  {| root :=
       Node {| tag := "body"; geometry := Some (1280, 720); text := "";
               props := []; node_assets := [] |}
            [ Node {| tag := "h1"; geometry := Some (800, 40); text := "Shop";
                      props := [("color", "red"); ("color", "black")];
                      node_assets := [] |} [];
              Node {| tag := "p"; geometry := Some (800, 20); text := "Open";
                      props := [("color", "black")]; node_assets := [] |} [];
              gradient_box ];
     title := "Shop";
     viewport := (1280, 720);
     stylesheets := [];
     assets := [] |}.

Definition ornament : AssetRef :=
  {| url := "https://example.com/img/ornament-with-a-long-name.png"; kind := Image |}.

(** A bundle with a decorative image and a nested subtree. *)
Definition bundle : ConsolidatedBundle :=
  {| css := [ {| rule_class := 0; declarations := [("color", "black")] |} ];
     skeleton :=
       Elem "body" 0 "" []
         [ Elem "h1" 0 "Shop" [] [];
           Elem "div" 0 "" [ornament]
             [ Elem "div" 0 "" [] [ Elem "span" 0 "" [] [] ] ] ];
     bundle_assets := [ornament] |}.

(** A budget that the bundle exceeds and its truncation meets: asset
    references of kind image are decorative, a subtree without text is
    low in information. *)
Definition tight : AssemblerConfig :=
  {| budget := 130;
     decorative := fun a => AssetKind_eqb (kind a) Image;
     low_information := fun s => match s with Elem _ _ txt _ _ => String.eqb txt "" end;
     collapse_depth := 0;
     system_instructions := "Return one complete HTML document.";
     default_temperature := 0;
     default_max_tokens := 4096 |}.

Definition roomy : AssemblerConfig :=
  {| budget := 4000;
     decorative := decorative tight;
     low_information := low_information tight;
     collapse_depth := 2;
     system_instructions := system_instructions tight;
     default_temperature := 0;
     default_max_tokens := 4096 |}.

Definition failing (name : string) (e : ProviderTransportError) : Provider :=
  {| identity := name; invoke := fun _ _ => inl e |}.

Definition retry_policy : OrchestratorConfig :=
  {| attempt_cap := 3;
     escalation_ceiling := 2;
     reduce_threshold := 1;
     backoff_base := 100;
     emphasis := fun level => if Nat.eqb level 0 then "" else " You must include the full content.";
     reduce_scope := fun p => p |}.

(** A parser that finds no document in the empty text. *)
Definition parser (text : string) : option ParsedDocument :=
  if String.eqb text "" then None
  else Some {| has_root := true; has_body := true; visible_text := text;
               doc_elements := [] |}.

Definition thresholds : ValidatorConfig :=
  {| min_text_length := 50;
     min_meaningful_elements := 5;
     disallowed_markers := ["lorem ipsum"];
     strict_asset_fraction := None |}.

Definition all_failing : Generation :=
  {| policy := retry_policy;
     providers := [failing "first" Timeout; failing "second" RateLimit];
     parse_html := parser;
     validator := thresholds;
     refs := [] |}.

Definition request : GenerationRequest := request_of roomy bundle.

Definition setup : Setup :=
  {| render := renderer;
     render_timeout := 30;
     assembler := roomy;
     orchestrator := retry_policy;
     configured_providers := [failing "first" Timeout; failing "second" AuthError];
     html_parser := parser;
     validator_config := thresholds |}.




End Sample.

(* ===================================================================== *)
(** ** More of JavaScript strings *)
(* ===================================================================== *)

Module JSString.

Import JS.

(** Match the literal [p] at the head of [s], case and all, and return
    what follows. *)
Fixpoint eat (p s : str) : option str :=
  match p with
  | [] => Some s
  | a :: p' =>
      match s with
      | [] => None
      | c :: s' => if N.eqb a c then eat p' s' else None
      end
  end.

(** [s.replace(pattern, replacement)] for a string pattern and a
    replacement without [$]: the first occurrence of the pattern is
    replaced, and a string without the pattern is returned as it is. *)
Fixpoint replace_first (pat rep s : str) : str :=
  match eat pat s with
  | Some rest => rep ++ rest
  | None =>
      match s with
      | [] => []
      | c :: s' => c :: replace_first pat rep s'
      end
  end.

(** The class [\w] of a regular expression without flags: ASCII letters,
    digits and the underscore. *)
Definition is_word (c : char) : bool :=
  ((65 <=? c) && (c <=? 90) || (97 <=? c) && (c <=? 122)
   || (48 <=? c) && (c <=? 57) || (c =? 95))%N.

(** [s.replace(/^https?:\/\//, "")]: the expression has no [i] flag, so
    that only a lower-case scheme goes. *)
Definition strip_scheme (s : str) : str :=
  match eat (lit "http") s with
  | None => s
  | Some r =>
      let with_s :=
        match r with
        | c :: r' => if N.eqb c 115 then eat (lit "://") r' else None
        | [] => None
        end in
      match with_s with
      | Some rest => rest
      | None =>
          match eat (lit "://") r with
          | Some rest => rest
          | None => s
          end
      end
  end.

(** [s.replace(/[^\w]/g, "-")]: every code unit outside [\w] becomes a
    hyphen. *)
Definition dash_non_word (s : str) : str :=
  map (fun c => if is_word c then c else 45%N) s.

(** A string that does not begin with white space. *)
Definition head_not_space (s : str) : Prop :=
  match s with
  | [] => True
  | c :: _ => isWhiteSpace c = false
  end.

End JSString.

(* ===================================================================== *)
(** ** The clone form: the submit button and the demo buttons *)
(* ===================================================================== *)

Module FormControls.

Import JS.

(** [disabled={isLoading || !url.trim()}] of the submit button. *)
Definition submit_disabled (isLoading : bool) (url : str) : bool :=
  isLoading || negb (truthy (trim url)).

(** [demoUrls]. *)
Definition demoUrls : list str :=
  map lit ["https://stripe.com"; "https://vercel.com"; "https://github.com";
           "https://tailwindcss.com"]%string.

(** The label of a demo button: [demoUrl.replace("https://", "")]. *)
Definition demo_label (demoUrl : str) : str :=
  JSString.replace_first (lit "https://") [] demoUrl.

End FormControls.

(* ===================================================================== *)
(** ** The home page: what it renders, and [handleReset] *)
(* ===================================================================== *)

Module HomeView.

Import JS.

(** The initial values of the four [useState] cells. *)
Definition initial : Home.state :=
  {| Home.cloneResult := None; Home.isLoading := false; Home.error := None;
     Home.originalUrl := [] |}.

(** [{error && <ErrorMessage ... />}]: the banner is rendered when
    [error] is truthy; the empty string is not. *)
Definition shows_error (s : Home.state) : bool :=
  match Home.error s with
  | Some m => truthy m
  | None => false
  end.

(** [{cloneResult && <CloneResult ... />}]: an object is truthy. *)
Definition shows_result (s : Home.state) : bool :=
  match Home.cloneResult s with
  | Some _ => true
  | None => false
  end.

(** [onDismiss] of the banner: [() => setError(null)]. *)
Definition dismiss (s : Home.state) : Home.state := Home.setError None s.

(** [<CloneForm onSubmit={handleClone} isLoading={isLoading} />]: an
    attempt to submit the form with [input] in its field.  The browser
    fires the submit event, and so runs [handleSubmit], only when the
    submit button is not disabled and the field passes its constraint
    validation ([<input type="url" required>], and the form has no
    [noValidate]); [valid] is that validation, which is the browser's.
    The handler then runs [handleClone] on the URL it passes. *)
Definition submit (valid : str -> bool)
    (cloneWebsite : str -> Exn.result Home.CloneResponse)
    (input : str) (s : Home.state) : Home.state :=
  if FormControls.submit_disabled (Home.isLoading s) input || negb (valid input)
  then s
  else fold_left (fun st u => Home.handleClone cloneWebsite u st)
                 (CloneForm.submitted input) s.

End HomeView.

(* ===================================================================== *)
(** ** The home page with preview, refinement and comparison *)
(* ===================================================================== *)

(** The [Home] component that uses [UrlForm], [IframePreview],
    [DiffSlider] and [Toast]. *)
Module PreviewHome.

Import JS.

(** The eight [useState] cells of the page. *)
Record state := {
  url : str;
  clonedHtml : option str;
  isLoading : bool;
  error : option str;
  originalScreenshot : option str;
  cloneScreenshot : option str;
  refinePrompt : str;
  isRefining : bool
}.

Definition initial : state :=
  {| url := []; clonedHtml := None; isLoading := false; error := None;
     originalScreenshot := None; cloneScreenshot := None; refinePrompt := [];
     isRefining := false |}.

Definition setUrl (v : str) (s : state) : state :=
  {| url := v; clonedHtml := clonedHtml s; isLoading := isLoading s;
     error := error s; originalScreenshot := originalScreenshot s;
     cloneScreenshot := cloneScreenshot s; refinePrompt := refinePrompt s;
     isRefining := isRefining s |}.

Definition setClonedHtml (v : option str) (s : state) : state :=
  {| url := url s; clonedHtml := v; isLoading := isLoading s;
     error := error s; originalScreenshot := originalScreenshot s;
     cloneScreenshot := cloneScreenshot s; refinePrompt := refinePrompt s;
     isRefining := isRefining s |}.

Definition setIsLoading (v : bool) (s : state) : state :=
  {| url := url s; clonedHtml := clonedHtml s; isLoading := v;
     error := error s; originalScreenshot := originalScreenshot s;
     cloneScreenshot := cloneScreenshot s; refinePrompt := refinePrompt s;
     isRefining := isRefining s |}.

Definition setError (v : option str) (s : state) : state :=
  {| url := url s; clonedHtml := clonedHtml s; isLoading := isLoading s;
     error := v; originalScreenshot := originalScreenshot s;
     cloneScreenshot := cloneScreenshot s; refinePrompt := refinePrompt s;
     isRefining := isRefining s |}.

Definition setOriginalScreenshot (v : option str) (s : state) : state :=
  {| url := url s; clonedHtml := clonedHtml s; isLoading := isLoading s;
     error := error s; originalScreenshot := v;
     cloneScreenshot := cloneScreenshot s; refinePrompt := refinePrompt s;
     isRefining := isRefining s |}.

Definition setCloneScreenshot (v : option str) (s : state) : state :=
  {| url := url s; clonedHtml := clonedHtml s; isLoading := isLoading s;
     error := error s; originalScreenshot := originalScreenshot s;
     cloneScreenshot := v; refinePrompt := refinePrompt s;
     isRefining := isRefining s |}.



(** Truthiness of a [string | null] cell. *)
Definition truthy_cell (v : option str) : bool :=
  match v with Some x => truthy x | None => false end.

(** [new Blob(parts, { type })], by the arguments of the constructor.
    The blob holds the UTF-8 encoding of the parts, in which a surrogate
    without its pair is written as U+FFFD. *)
Record blob := {
  blob_parts : list str;
  blob_type : str
}.

(** A leading and a trailing surrogate code unit. *)
Definition is_leading (c : char) : bool := (55296 <=? c)%N && (c <=? 56319)%N.
Definition is_trailing (c : char) : bool := (56320 <=? c)%N && (c <=? 57343)%N.

(** The conversion of a string to scalar values, which the [Blob]
    constructor applies to a string part before encoding it: a surrogate
    without its pair becomes U+FFFD. *)
Fixpoint toUSVString (s : str) : str :=
  match s with
  | [] => []
  | c :: rest =>
      if is_leading c then
        match rest with
        | d :: rest' =>
            if is_trailing d then c :: d :: toUSVString rest'
            else 65533%N :: toUSVString rest
        | [] => [65533%N]
        end
      else if is_trailing c then 65533%N :: toUSVString rest
      else c :: toUSVString rest
  end.

(** [String.prototype.isWellFormed]: every surrogate is in a pair. *)
Fixpoint isWellFormed (s : str) : bool :=
  match s with
  | [] => true
  | c :: rest =>
      if is_leading c then
        match rest with
        | d :: rest' => is_trailing d && isWellFormed rest'
        | [] => false
        end
      else negb (is_trailing c) && isWellFormed rest
  end.

(** The text that a blob holds, as the decoding of its bytes. *)
Definition blob_text (b : blob) : str := flat_map toUSVString (blob_parts b).

(** What a handler asks of [lib/api] and of [file-saver]. *)
Inductive call :=
| CloneWebsite (inputUrl : str)
| GetScreenshot (inputUrl : str)
| RefineClone (html instruction : str)
| SaveAs (content : blob) (filename : str).

Section Api.

(** The helpers of [lib/api], each by how its promise settles.  For
    [cloneWebsite] and [refineClone] the value is the [html] that the
    handler destructures from the resolved object; a state cell takes a
    string or [null]. *)
Variable cloneWebsite : str -> Exn.result (option str).
Variable getScreenshot : str -> Exn.result (option str).
Variable refineClone : str -> str -> Exn.result (option str).

(** [handleClone]: the state it leaves and the calls it made, in order.
    Once [clonedHtml] is set and truthy the preview is mounted, and the
    effect on [clonedHtml] listens to its load:
    [captureCloneScreenshot] may then call [setCloneScreenshot] while
    [handleClone] awaits [getScreenshot].  [captured] is the data URL it
    set meanwhile, if it did.  Nothing else runs meanwhile. *)
Definition handleClone (captured : option str) (inputUrl : str) (s : state)
  : state * list call :=
  let s := setUrl inputUrl s in
  let s := setIsLoading true s in
  let s := setError None s in
  let s := setClonedHtml None s in
  let s := setOriginalScreenshot None s in
  let s := setCloneScreenshot None s in
  let (s, calls) :=
    match cloneWebsite inputUrl with
    | inl err =>
        (setError (Some (Exn.message_or (lit "Failed to clone website") err)) s,
         [CloneWebsite inputUrl])
    | inr html =>
        let s := setClonedHtml html s in
        let s :=
          match captured with
          | Some dataUrl =>
              if truthy_cell html then setCloneScreenshot (Some dataUrl) s else s
          | None => s
          end in
        match getScreenshot inputUrl with
        | inl err =>
            (setError (Some (Exn.message_or (lit "Failed to clone website") err)) s,
             [CloneWebsite inputUrl; GetScreenshot inputUrl])
        | inr screenshot =>
            (setOriginalScreenshot screenshot s,
             [CloneWebsite inputUrl; GetScreenshot inputUrl])
        end
    end in
  (setIsLoading false s, calls).


End Api.

(** The file name of [handleDownload]: the URL without its scheme, its
    code units outside [\w] turned into hyphens, then [-clone.html]. *)
Definition download_name (u : str) : str :=
  JSString.dash_non_word (JSString.strip_scheme u) ++ lit "-clone.html".

(** [handleDownload]: [saveAs] of a blob made of the clone alone. *)
Definition handleDownload (s : state) : list call :=
  match clonedHtml s with
  | Some html =>
      if negb (truthy html) then []
      else [SaveAs {| blob_parts := [html]; blob_type := lit "text/html" |}
                   (download_name (url s))]
  | None => []
  end.

(** The page renders the preview and the refinement box when
    [clonedHtml] is truthy, the toast when [error] is, and the comparison
    when both screenshots are. *)
Definition shows_preview (s : state) : bool := truthy_cell (clonedHtml s).
Definition shows_toast (s : state) : bool := truthy_cell (error s).
Definition shows_comparison (s : state) : bool :=
  shows_preview s
  && truthy_cell (originalScreenshot s) && truthy_cell (cloneScreenshot s).

(** A code unit that a download name may hold. *)
Definition name_unit (c : char) : bool :=
  JSString.is_word c || N.eqb c 45 || N.eqb c 46.

End PreviewHome.

(* ===================================================================== *)
(** ** The API route: the forwarded request *)
(* ===================================================================== *)

Module RouteFacts.

Import JS.

(** The request that [POST] forwards for a [url] of value [v]: the
    argument of its [fetch]. *)
Definition forward_of (v : Json.value) : Route.FetchRequest :=
  {| Route.endpoint := lit "http://localhost:8000/api/clone/stream";
     Route.method := lit "POST";
     Route.headers := [(lit "Content-Type", lit "application/json")];
     Route.body := Json.Object [(lit "url", v)] |}.

(** [errorData.detail || "Failed to clone website"], once [detail] is
    read. *)
Definition detail_or_default (detail : option Json.value) : Json.value :=
  match detail with
  | Some v => if Json.truthy detail then v else Json.Str (lit "Failed to clone website")
  | None => Json.Str (lit "Failed to clone website")
  end.

(** [JSON.stringify(v)] for a value [v] that [JSON.parse] returned, by
    the value that its text denotes.  A number that is not finite is
    written [null], a negative zero [0]; everything else is written as it
    is, the members of an object in the order in which the object
    enumerates them. *)
Fixpoint JSON_stringify (v : Json.value) : Json.value :=
  match v with
  | Json.Number (SpecFloat.S754_zero _) => Json.Number (SpecFloat.S754_zero false)
  | Json.Number (SpecFloat.S754_infinity _) => Json.Null
  | Json.Number SpecFloat.S754_nan => Json.Null
  | Json.Number (SpecFloat.S754_finite _ _ _) => v
  | Json.Null | Json.Bool _ | Json.Str _ => v
  | Json.Array items => Json.Array (map JSON_stringify items)
  | Json.Object members =>
      Json.Object (map (fun m => (fst m, JSON_stringify (snd m))) members)
  end.

(** What a client reads of a response of [NextResponse.json]: the value
    of the text sent. *)
Definition sent (r : Route.NextResponse) : Json.value :=
  JSON_stringify (Route.response_body r).

(** A value without a number that [JSON.stringify] writes as another:
    every number in it is finite and no negative zero. *)
Fixpoint writable (v : Json.value) : bool :=
  match v with
  | Json.Number (SpecFloat.S754_zero negative) => negb negative
  | Json.Number (SpecFloat.S754_infinity _) => false
  | Json.Number SpecFloat.S754_nan => false
  | Json.Number (SpecFloat.S754_finite _ _ _) => true
  | Json.Null | Json.Bool _ | Json.Str _ => true
  | Json.Array items => forallb writable items
  | Json.Object members => forallb (fun m => writable (snd m)) members
  end.

(** A status that [NextResponse.json] takes with a body. *)
Definition status_with_body (st : nat) : bool :=
  (200 <=? st) && (st <=? 599)
  && negb ((st =? 204) || (st =? 205) || (st =? 304)).

End RouteFacts.

(* ===================================================================== *)
(** ** The result view: the preview's [onError] and the debug panel *)
(* ===================================================================== *)

Module ResultPanel.

Import JS.

(** The [onError] handler of the preview. *)
Definition onError (s : CloneResult.state) : CloneResult.state :=
  CloneResult.setHtmlError
    (Some (lit "Failed to load preview. The website might have security restrictions."))
    s.





(** What happens to the preview after the effect: it loads, or fails to. *)
Inductive preview_event :=
| Loaded (frame : Exn.result (option CloneResult.Document))
| Failed.

Definition handle (s : CloneResult.state) (ev : preview_event) : CloneResult.state :=
  match ev with
  | Loaded frame => CloneResult.onLoad frame s
  | Failed => onError s
  end.

End ResultPanel.

(* ===================================================================== *)
(** ** More sample inputs *)
(* ===================================================================== *)

Module MoreSamples.

Import JS.

Definition typed : str := lit "  example.com ".
Definition formatted : str := lit "https://example.com".

(** A browser that finds every value of the field valid. *)
Definition accepts_all (value : str) : bool := true.

(** [cloneWebsite] resolving, and throwing an error without message. *)
Definition resolving (u : str) : Exn.result Home.CloneResponse :=
  inr {| Home.clone_html := Some (lit "<html><body>ok</body></html>");
         Home.images := Some [lit "https://example.com/a.png"; lit "https://example.com/b.png"] |}.

Definition failing_silently (u : str) : Exn.result Home.CloneResponse :=
  inl (Exn.ErrorObject []).


(** The page with preview: a clone on display and a prompt typed. *)
Definition cloned : PreviewHome.state :=
  {| PreviewHome.url := formatted;
     PreviewHome.clonedHtml := Some (lit "<html><body>ok</body></html>");
     PreviewHome.isLoading := false;
     PreviewHome.error := None;
     PreviewHome.originalScreenshot := Some (lit "data:image/png;base64,AAAA");
     PreviewHome.cloneScreenshot := None;
     PreviewHome.refinePrompt := lit "Make it dark mode";
     PreviewHome.isRefining := false |}.

Definition clone_ok (u : str) : Exn.result (option str) :=
  inr (Some (lit "<html><body>ok</body></html>")).

Definition screenshot_fails (u : str) : Exn.result (option str) :=
  inl (Exn.ErrorObject (lit "Screenshot failed")).


(** A request with a URL, and two back ends. *)
Definition wanted : Json.value := Json.Str formatted.

Definition request : Route.NextRequest :=
  {| Route.request_json := inr (Json.Object [(lit "url", wanted)]) |}.

Definition payload : Json.value :=
  Json.Object [(lit "clone_html", Json.Str (lit "<html><body>ok</body></html>"))].

Definition answering (r : Route.FetchRequest) : Exn.result Route.BackendResponse :=
  inr {| Route.status := 200; Route.json := inr payload |}.

Definition not_found : Json.value :=
  Json.Object [(lit "detail", Json.Str (lit "Target not reachable"))].

Definition refusing (r : Route.FetchRequest) : Exn.result Route.BackendResponse :=
  inr {| Route.status := 404; Route.json := inr not_found |}.

(** A response whose content is valid for the sample helpers. *)
Definition valid_response : Home.CloneResponse :=
  {| Home.clone_html := Some (lit " <html><body>ok</body></html> "); Home.images := None |}.

(** A document without a body. *)
Definition bodiless : CloneResult.Document :=
  {| CloneResult.body := None; CloneResult.elements := [] |}.

End MoreSamples.
(* ===================================================================== *)
(** * Theorems *)
(* ===================================================================== *)

(** ** Strings *)

Lemma eat_ci_app (p q s : JS.str) :
  JS.eat_ci (p ++ q) s =
  match JS.eat_ci p s with Some r => JS.eat_ci q r | None => None end.
Proof.
  revert s; induction p as [|a p IH]; intros s; simpl; [reflexivity|].
  destruct s as [|c s]; [reflexivity|].
  destruct (JS.ci_eq a c); [apply IH | reflexivity].
Qed.

(** ** The clone form *)

Lemma has_http_scheme_begins (s : JS.str) :
  CloneForm.has_http_scheme s = CloneForm.begins_with_scheme s.
Proof.
  unfold CloneForm.has_http_scheme, CloneForm.begins_with_scheme, JS.starts_with_ci.
  change (JS.lit "http://") with (JS.lit "http" ++ JS.lit "://").
  change (JS.lit "https://") with (JS.lit "http" ++ [115%N] ++ JS.lit "://").
  rewrite !eat_ci_app.
  destruct (JS.eat_ci (JS.lit "http") s) as [r|]; [|reflexivity].
  rewrite eat_ci_app.
  destruct r as [|c r]; cbn [JS.eat_ci app]; [reflexivity|].
  destruct (JS.ci_eq 115%N c); apply orb_comm.
Qed.

(** C8. The submit handler calls [onSubmit] exactly when the trimmed input
    is not empty; the URL it passes begins with [http://] or [https://] up
    to letter case, and is the trimmed input when that already begins so,
    and [https://] followed by the trimmed input otherwise. *)
Theorem handleSubmit_formats_url (url : JS.str) :
  ((exists u, CloneForm.submitted url = [u]) <-> JS.trim url <> []) /\
  (JS.trim url = [] -> CloneForm.submitted url = []) /\
  (forall u, In u (CloneForm.submitted url) ->
     CloneForm.begins_with_scheme u = true /\
     u = if CloneForm.begins_with_scheme (JS.trim url)
         then JS.trim url
         else JS.lit "https://" ++ JS.trim url).
Proof.
  unfold CloneForm.submitted, CloneForm.handleSubmit.
  rewrite has_http_scheme_begins.
  destruct (JS.trim url) as [|c t] eqn:Et; simpl.
  - split; [split|split].
    + intros [u Hu]; discriminate.
    + intros H; now elim H.
    + reflexivity.
    + intros u [].
  - destruct (CloneForm.begins_with_scheme (c :: t)) eqn:Es; simpl.
    + split; [split|split]; try discriminate; eauto.
      intros u [<-|[]]; split; [exact Es | reflexivity].
    + split; [split|split]; try discriminate; eauto.
      intros u [<-|[]]; split; reflexivity.
Qed.

(** ** The home page *)

Lemma handleClone_start_resets (url : JS.str) (s : Home.state) :
  Home.cloneResult (Home.handleClone_start url s) = None /\
  Home.error (Home.handleClone_start url s) = None.
Proof. split; reflexivity. Qed.

(** C9. A run of [handleClone] first resets [cloneResult] and [error] to
    null; when [cloneWebsite] resolves it leaves the result in
    [cloneResult] and [error] null, when it throws it leaves the message
    in [error] and [cloneResult] null: after the run at most one of the
    two is non-null. *)
Theorem handleClone_result_or_error
    (cloneWebsite : JS.str -> Exn.result Home.CloneResponse)
    (url : JS.str) (s : Home.state) :
  let started := Home.handleClone_start url s in
  let final := Home.handleClone cloneWebsite url s in
  (Home.cloneResult started = None /\ Home.error started = None) /\
  (Home.cloneResult final = None \/ Home.error final = None) /\
  match cloneWebsite url with
  | inr result =>
      Home.cloneResult final = Some result /\ Home.error final = None
  | inl err =>
      Home.cloneResult final = None /\
      Home.error final = Some (Exn.message_or (JS.lit "Failed to clone website") err)
  end /\
  Home.isLoading final = false /\ Home.originalUrl final = url.
Proof.
  cbv zeta. split; [apply handleClone_start_resets|].
  unfold Home.handleClone.
  destruct (cloneWebsite url) as [err|result]; cbn;
    repeat split; auto.
Qed.

(** ** The API route *)

Lemma NextResponse_json_400 (data : Json.value) (log : list Route.event) :
  Route.NextResponse_json data 400 log =
  (inr {| Route.response_status := 400; Route.response_body := data |}, log).
Proof. reflexivity. Qed.

Lemma member_falsy_property (body : Json.value) :
  body <> Json.Null ->
  Route.lacks_truthy_url body = true ->
  exists url, Json.property (JS.lit "url") body = inr url /\ Json.truthy url = false.
Proof.
  intros Hnull Hlack.
  destruct body as [|b|x|s|items|ms]; try (eexists; split; reflexivity).
  - now elim Hnull.
  - exists (Json.member (JS.lit "url") ms); split; [reflexivity|].
    unfold Route.lacks_truthy_url in Hlack.
    now apply negb_true_iff in Hlack.
Qed.

Lemma POST_catches (backend : Route.FetchRequest -> Exn.result Route.BackendResponse)
    (request : Route.NextRequest) (e : Exn.thrown) (log : list Route.event) :
  Route.POST_try backend request [] = (inl e, log) ->
  Route.POST backend request [] = (inr Route.internal_error, log ++ [Route.ConsoleError]).
Proof.
  intros H. unfold Route.POST, Route.try_catch. rewrite H. reflexivity.
Qed.

(** C10, as the code has it.  When the parsed body is not [null] and
    lacks a truthy [url], the handler answers 400 with
    [{ error: "URL is required" }] and forwards nothing.  Whatever is
    thrown inside the handler, among which the rejection of
    [request.json()] and the destructuring of a [null] body, is answered
    500 with [{ error: "Internal server error" }]; for these two nothing
    is forwarded either. *)
Theorem POST_missing_url_or_thrown
    (backend : Route.FetchRequest -> Exn.result Route.BackendResponse)
    (request : Route.NextRequest) :
  (forall body,
     Route.request_json request = inr body ->
     body <> Json.Null ->
     Route.lacks_truthy_url body = true ->
     Route.respond backend request = inr Route.bad_request /\
     Route.forwarded backend request = []) /\
  (forall e,
     fst (Route.POST_try backend request []) = inl e ->
     Route.respond backend request = inr Route.internal_error) /\
  (Route.request_json request = inr Json.Null \/
   (exists e, Route.request_json request = inl e) ->
   Route.respond backend request = inr Route.internal_error /\
   Route.forwarded backend request = []).
Proof.
  split; [|split].
  - intros body Hbody Hnull Hlack.
    destruct (member_falsy_property Hnull Hlack) as (url & Hurl & Hfalsy).
    unfold Route.respond, Route.forwarded, Route.POST, Route.try_catch,
      Route.POST_try, Route.bind, Route.lift.
    rewrite Hbody; cbn [Route.ret]. rewrite Hurl; cbn [Route.ret].
    rewrite Hfalsy; cbn [negb]. rewrite NextResponse_json_400.
    split; reflexivity.
  - intros e He. unfold Route.respond.
    destruct (Route.POST_try backend request []) as [r log] eqn:Htry.
    cbn in He; subst r.
    rewrite (POST_catches _ _ Htry). reflexivity.
  - intros H.
    unfold Route.respond, Route.forwarded, Route.POST, Route.try_catch,
      Route.POST_try, Route.bind, Route.lift.
    destruct H as [H|[e H]]; rewrite H; split; reflexivity.
Qed.

(** C10 at a request of body [{}]: 400 and nothing forwarded. *)
Lemma POST_missing_url_or_thrown_witness :
  Route.respond (fun _ => inl Exn.OtherValue)
                {| Route.request_json := inr (Json.Object []) |}
  = inr Route.bad_request /\
  Route.forwarded (fun _ => inl Exn.OtherValue)
                  {| Route.request_json := inr (Json.Object []) |} = [].
Proof.
  apply (proj1 (POST_missing_url_or_thrown
                  (fun _ => inl Exn.OtherValue)
                  {| Route.request_json := inr (Json.Object []) |})
               (Json.Object [])).
  - reflexivity.
  - discriminate.
  - reflexivity.
Defined.

(** C10 as stated fails at the JSON body [null]: it lacks a truthy [url]
    field, the destructuring [const { url } = body] throws, and the answer
    is 500, not 400. *)
Lemma POST_null_body_not_400 :
  Route.lacks_truthy_url Json.Null = true /\
  Route.respond (fun _ => inl Exn.OtherValue)
                {| Route.request_json := inr Json.Null |}
  = inr Route.internal_error /\
  Route.respond (fun _ => inl Exn.OtherValue)
                {| Route.request_json := inr Json.Null |}
  <> inr Route.bad_request.
Proof.
  split; [reflexivity|]. split; [reflexivity|]. discriminate.
Qed.


(** A successful answer of the back end with a JSON payload is relayed:
    the handler gives the payload to [NextResponse.json] under status
    200. *)
Lemma POST_relays_ok_payload
    (backend : Route.FetchRequest -> Exn.result Route.BackendResponse)
    (request : Route.NextRequest)
    (body v data : Json.value) (answer : Route.BackendResponse) :
  Route.request_json request = inr body ->
  Json.property (JS.lit "url") body = inr (Some v) ->
  Json.truthy (Some v) = true ->
  backend (RouteFacts.forward_of v) = inr answer ->
  Route.ok answer = true ->
  Route.json answer = inr data ->
  Route.respond backend request
  = inr {| Route.response_status := 200; Route.response_body := data |}.
Proof.
  intros Hbody Hurl Htruthy Hanswer Hok Hdata.
  unfold Route.respond, Route.POST, Route.try_catch, Route.POST_try,
    Route.bind, Route.lift, Route.fetch, Route.bind, Route.emit, Route.lift,
    Route.NextResponse_json.
  rewrite Hbody; cbn [Route.ret]. rewrite Hurl; cbn [Route.ret].
  rewrite Htruthy; cbn [negb].
  fold (RouteFacts.forward_of v). rewrite Hanswer; cbn [Route.ret app].
  rewrite Hok; cbn [negb]. rewrite Hdata. reflexivity.
Qed.

(** ** The result view *)






Lemma minimal_content_iff (doc : CloneResult.Document) :
  CloneResult.minimal_content doc = true <->
  JS.length (CloneResult.bodyText doc) < 50 \/
  List.length (CloneResult.visibleElements doc) < 5.
Proof.
  unfold CloneResult.minimal_content.
  rewrite orb_true_iff, !Nat.ltb_lt. reflexivity.
Qed.

(** C6, as the code has it.  The content check of the preview flags a
    loaded document exactly when its body text is shorter than 50 code
    units or it has fewer than 5 meaningful elements (text-bearing or
    image); it leaves the state alone exactly when both minima are
    reached.  Fewer meaningful elements than the minimum are flagged
    whatever the text. *)
Theorem onLoad_flags_minimal_content
    (doc : CloneResult.Document) (s : CloneResult.state) :
  let s' := CloneResult.onLoad (inr (Some doc)) s in
  (List.length (CloneResult.visibleElements doc) < 5 ->
   CloneResult.htmlError s' = Some (CloneResult.minimal_content_message doc)) /\
  (JS.length (CloneResult.bodyText doc) < 50 ->
   CloneResult.htmlError s' = Some (CloneResult.minimal_content_message doc)) /\
  (50 <= JS.length (CloneResult.bodyText doc) ->
   5 <= List.length (CloneResult.visibleElements doc) ->
   s' = s) /\
  CloneResult.processedHtml s' = CloneResult.processedHtml s.
Proof.
  cbv zeta. unfold CloneResult.onLoad.
  destruct (CloneResult.minimal_content doc) eqn:Hmin.
  - apply minimal_content_iff in Hmin.
    repeat split; try reflexivity. intros; lia.
  - assert (Hno : ~ (JS.length (CloneResult.bodyText doc) < 50 \/
                     List.length (CloneResult.visibleElements doc) < 5)).
    { rewrite <- minimal_content_iff, Hmin. discriminate. }
    repeat split; try reflexivity; intros; exfalso; apply Hno; auto.
Qed.

(** ** Induction over the trees of the pipeline *)

Lemma Dom_forall_ind (P : Pipeline.Dom -> Prop) :
  (forall e kids, Forall P kids -> P (Pipeline.El e kids)) ->
  forall d, P d.
Proof.
  intros step. fix IH 1. intros [e kids]. apply step.
  induction kids as [|k kids IHkids]; constructor; [apply IH | exact IHkids].
Qed.

Lemma StyleNode_forall_ind (P : Pipeline.StyleNode -> Prop) :
  (forall i kids, Forall P kids -> P (Pipeline.Node i kids)) ->
  forall n, P n.
Proof.
  intros step. fix IH 1. intros [i kids]. apply step.
  induction kids as [|k kids IHkids]; constructor; [apply IH | exact IHkids].
Qed.

(** ** Capture Engine: URLs *)

Lemma scheme_tail_rebuild (s sch rest x : string) :
  Pipeline.scheme_tail s = Some (sch, rest) ->
  Pipeline.scheme_tail (sch ++ String ":" x) = Some (sch, x).
Proof.
  revert sch rest; induction s as [|a s IH]; intros sch rest; simpl; [discriminate|].
  destruct (Ascii.eqb a ":") eqn:Ecolon.
  - intros [= <- _]. reflexivity.
  - destruct (Pipeline.is_scheme_char a) eqn:Echar; [|discriminate].
    destruct (Pipeline.scheme_tail s) as [[sch' rest']|]; [|discriminate].
    intros [= <- <-]. simpl. rewrite Ecolon, Echar, (IH sch' rest' eq_refl). reflexivity.
Qed.

Lemma colon_not_alpha (a : ascii) :
  Pipeline.is_alpha a = true -> Ascii.eqb a ":" = false.
Proof.
  intros H. destruct (Ascii.eqb_spec a ":") as [->|]; [discriminate H | reflexivity].
Qed.

(** A URL made of the scheme of an absolute URL, a colon and anything is
    absolute. *)
Lemma split_scheme_rebuild (s sch rest x : string) :
  Pipeline.split_scheme s = Some (sch, rest) ->
  Pipeline.is_absolute (sch ++ ":" ++ x) = true.
Proof.
  unfold Pipeline.is_absolute, Pipeline.split_scheme.
  destruct s as [|a s]; [discriminate|].
  destruct (Pipeline.is_alpha a) eqn:Ealpha; [|discriminate].
  intros Htail. pose proof (scheme_tail_rebuild _ x Htail) as Hre.
  simpl in Htail. rewrite (colon_not_alpha _ Ealpha) in Htail.
  destruct (Pipeline.is_scheme_char a); [|discriminate].
  destruct (Pipeline.scheme_tail s) as [[sch' rest']|]; [|discriminate].
  injection Htail as <- _.
  change ((String a sch' ++ ":" ++ x)%string) with (String a (sch' ++ String ":" x)%string).
  change ((String a sch' ++ String ":" x)%string)
    with (String a (sch' ++ String ":" x)%string) in Hre.
  cbv iota beta. rewrite Ealpha, Hre. reflexivity.
Qed.

Lemma absolutize_is_absolute (base ref : string) :
  Pipeline.is_absolute base = true ->
  Pipeline.is_absolute (Pipeline.absolutize base ref) = true.
Proof.
  intros Hbase. unfold Pipeline.absolutize.
  destruct (Pipeline.is_absolute ref) eqn:Href; [exact Href|].
  unfold Pipeline.is_absolute in Hbase.
  destruct (Pipeline.split_scheme base) as [[sch rest]|] eqn:Hsplit; [|discriminate].
  destruct (Pipeline.authority_path rest) as [auth path].
  destruct (String.prefix "//" ref); [|destruct (String.prefix "/" ref)];
    eapply split_scheme_rebuild; exact Hsplit.
Qed.

(** An absolute URL is not protocol-relative: it begins with a letter. *)
Lemma absolute_not_protocol_relative (u : string) :
  Pipeline.is_absolute u = true -> Pipeline.is_protocol_relative u = false.
Proof.
  unfold Pipeline.is_absolute, Pipeline.split_scheme, Pipeline.is_protocol_relative.
  destruct u as [|a u]; [discriminate|].
  destruct (Pipeline.is_alpha a) eqn:Ealpha; [|discriminate].
  intros _. cbn [String.prefix].
  destruct (Ascii.ascii_dec "/"%char a) as [<-|]; [discriminate Ealpha | reflexivity].
Qed.

Lemma make_asset_absolute (base : string) (r : string * Pipeline.AssetKind) :
  Pipeline.is_absolute base = true ->
  Pipeline.absolute_asset (Pipeline.make_asset base r).
Proof.
  intros Hbase. split; [|apply absolute_not_protocol_relative];
    apply absolutize_is_absolute, Hbase.
Qed.

Lemma capture_info_absolute (base : string) (e : Pipeline.ElementInfo) :
  Pipeline.is_absolute base = true ->
  Forall Pipeline.absolute_asset (Pipeline.node_assets (Pipeline.capture_info base e)).
Proof.
  intros Hbase. simpl. apply Forall_map, Forall_forall.
  intros r _. now apply make_asset_absolute.
Qed.

Lemma Forall_flat_map_intro {A B} (P : B -> Prop) (f : A -> list B) (l : list A) :
  Forall (fun x => Forall P (f x)) l -> Forall P (flat_map f l).
Proof.
  induction 1 as [|x l Hx _ IH]; simpl; [constructor|].
  apply Forall_app; split; assumption.
Qed.

Lemma walk_absolute (base : string) :
  Pipeline.is_absolute base = true ->
  forall d, Forall (fun n => Forall Pipeline.absolute_asset (Pipeline.tree_assets n))
                   (Pipeline.walk base d).
Proof.
  intros Hbase. induction d as [e kids IH] using Dom_forall_ind. simpl.
  destruct (Pipeline.pruned e); constructor; [|constructor].
  simpl. apply Forall_app; split.
  - apply Forall_map, Forall_forall. intros r _. now apply make_asset_absolute.
  - apply Forall_flat_map_intro, Forall_flat_map_intro. exact IH.
Qed.

Lemma uniq_Forall (P : Pipeline.AssetRef -> Prop) (l seen : list Pipeline.AssetRef) :
  Forall P l -> Forall P (Pipeline.uniq seen l).
Proof.
  intros H; revert seen; induction H as [|a l Ha _ IH]; intros seen; simpl.
  - constructor.
  - destruct (existsb (Pipeline.AssetRef_eqb a) seen); [apply IH|].
    constructor; [exact Ha | apply IH].
Qed.

(** C3. Every AssetRef of a captured manifest, in its asset set and on
    its nodes, has an absolute URL, neither relative nor
    protocol-relative; the base that the renderer resolved for the page is
    an absolute URL. *)
Theorem capture_urls_absolute
    (render : string -> nat -> Pipeline.CaptureError + Pipeline.RenderedPage)
    (timeout : nat) (target : string) (m : Pipeline.VisualManifest) :
  (forall page, render target timeout = inr page ->
                Pipeline.is_absolute (Pipeline.base page) = true) ->
  Pipeline.capture render timeout target = inr m ->
  Forall Pipeline.absolute_asset (Pipeline.assets m) /\
  Forall Pipeline.absolute_asset (Pipeline.tree_assets (Pipeline.root m)).
Proof.
  intros Hbase. unfold Pipeline.capture.
  destruct (render target timeout) as [e|page] eqn:Hrender; [discriminate|].
  specialize (Hbase page eq_refl).
  destruct (Pipeline.dom page) as [e kids] eqn:Hdom.
  intros [= <-]. cbn [Pipeline.assets Pipeline.root].
  assert (Htree : Forall Pipeline.absolute_asset
            (Pipeline.tree_assets
               (Pipeline.Node (Pipeline.capture_info (Pipeline.base page) e)
                  (flat_map (Pipeline.walk (Pipeline.base page)) kids)))).
  { cbn [Pipeline.tree_assets]. apply Forall_app; split.
    - now apply capture_info_absolute.
    - apply Forall_flat_map_intro, Forall_flat_map_intro, Forall_forall.
      intros d _. now apply walk_absolute. }
  split; [apply uniq_Forall|]; exact Htree.
Qed.

(** ** Generation Orchestrator *)

Lemma invocations_app (l1 l2 : list Pipeline.Event) :
  Pipeline.invocations (l1 ++ l2) = Pipeline.invocations l1 + Pipeline.invocations l2.
Proof.
  unfold Pipeline.invocations. now rewrite filter_app, length_app.
Qed.

Lemma invocations_backoff (cfg : Pipeline.OrchestratorConfig)
    (m m' : Pipeline.Machine) (o : Pipeline.Observation) :
  Pipeline.invocations (Pipeline.backoff cfg m m' o) = 0.
Proof.
  unfold Pipeline.backoff. destruct o; try reflexivity.
  destruct (_ =? _); reflexivity.
Qed.

(** The measure that every transition of the machine decreases. *)
Lemma transition_decreases (cfg : Pipeline.OrchestratorConfig) (n : nat)
    (m m' : Pipeline.Machine) (o : Pipeline.Observation) :
  let width := Nat.max 1 (Pipeline.attempt_cap cfg) + Pipeline.escalation_ceiling cfg in
  let weight := fun x : Pipeline.Machine =>
    (n - Pipeline.provider_index x) * width
    - Pipeline.attempt_count x - Pipeline.escalation_level x in
  let bounded := fun x : Pipeline.Machine =>
    Pipeline.attempt_count x < Nat.max 1 (Pipeline.attempt_cap cfg) /\
    Pipeline.escalation_level x <= Pipeline.escalation_ceiling cfg in
  Pipeline.provider_index m < n ->
  bounded m ->
  Pipeline.transition cfg m o = inl m' ->
  bounded m' /\ weight m' < weight m.
Proof.
  cbv zeta. intros Hidx [Hatt Hlvl].
  destruct m as [idx lvl att]; cbn [Pipeline.provider_index Pipeline.attempt_count
    Pipeline.escalation_level] in *.
  assert (Hcap : Pipeline.attempt_cap cfg <= Nat.max 1 (Pipeline.attempt_cap cfg)) by lia.
  set (cap := Nat.max 1 (Pipeline.attempt_cap cfg)) in *.
  set (ceil := Pipeline.escalation_ceiling cfg) in *.
  assert (Hsplit : (n - idx) * (cap + ceil) = (n - S idx) * (cap + ceil) + (cap + ceil)).
  { replace (n - idx) with (S (n - S idx)) by lia. simpl. lia. }
  unfold Pipeline.transition.
  destruct o as [e|reason|c score]; [| |discriminate].
  - destruct (Nat.ltb_spec (S (Pipeline.attempt_count (Pipeline.Build_Machine idx lvl att)))
                (Pipeline.attempt_cap cfg)) as [Hlt|Hge];
      intros [= <-]; unfold Pipeline.next_provider;
      cbn [Pipeline.provider_index Pipeline.attempt_count Pipeline.escalation_level] in *;
      set (rest := (n - S idx) * (cap + ceil)) in *;
      set (here := (n - idx) * (cap + ceil)) in *;
      clearbody rest here cap ceil; lia.
  - destruct (Nat.ltb_spec (Pipeline.escalation_level (Pipeline.Build_Machine idx lvl att))
                (Pipeline.escalation_ceiling cfg)) as [Hlt|Hge];
      intros [= <-]; unfold Pipeline.next_provider;
      cbn [Pipeline.provider_index Pipeline.attempt_count Pipeline.escalation_level] in *;
      try fold ceil in Hlt; try fold ceil in Hge;
      set (rest := (n - S idx) * (cap + ceil)) in *;
      set (here := (n - idx) * (cap + ceil)) in *;
      clearbody rest here cap ceil; lia.
Qed.

Lemma run_enough_fuel (g : Pipeline.Generation) (req : Pipeline.GenerationRequest)
    (fuel : nat) :
  forall (m : Pipeline.Machine) (log : list Pipeline.Event),
  Pipeline.attempt_count m < Nat.max 1 (Pipeline.attempt_cap (Pipeline.policy g)) ->
  Pipeline.escalation_level m <= Pipeline.escalation_ceiling (Pipeline.policy g) ->
  (List.length (Pipeline.providers g) - Pipeline.provider_index m)
  * (Nat.max 1 (Pipeline.attempt_cap (Pipeline.policy g))
     + Pipeline.escalation_ceiling (Pipeline.policy g))
  - Pipeline.attempt_count m - Pipeline.escalation_level m < fuel ->
  exists r, Pipeline.run g req fuel m log = Some r.
Proof.
  induction fuel as [|fuel IH]; intros m log Hatt Hlvl Hfuel; [lia|].
  cbn [Pipeline.run].
  destruct (nth_error (Pipeline.providers g) (Pipeline.provider_index m))
    as [p|] eqn:Hnth; [|eauto].
  assert (Hidx : Pipeline.provider_index m < List.length (Pipeline.providers g)).
  { apply nth_error_Some. congruence. }
  destruct (Pipeline.transition (Pipeline.policy g) m
              (Pipeline.attempt_once g req p m (Pipeline.invocations log)))
    as [m'|result] eqn:Htr; [|eauto].
  pose proof (@transition_decreases (Pipeline.policy g) _ m m' _ Hidx
                (conj Hatt Hlvl) Htr) as Hdec.
  cbv beta zeta in Hdec. destruct Hdec as [[Hatt' Hlvl'] Hdec].
  apply IH; [exact Hatt' | exact Hlvl' | lia].
Qed.

(** The orchestrator ends: the bound on attempts that [orchestrate]
    gives the run is never what stops it. *)
Lemma run_terminates (g : Pipeline.Generation) (req : Pipeline.GenerationRequest) :
  Pipeline.run g req (Pipeline.attempts_bound g) Pipeline.initial_machine []
  = Some (Pipeline.orchestrate g req).
Proof.
  unfold Pipeline.orchestrate.
  destruct (run_enough_fuel g req (fuel := Pipeline.attempts_bound g)
              Pipeline.initial_machine []) as [r Hr].
  - unfold Pipeline.initial_machine; cbn [Pipeline.attempt_count]. lia.
  - unfold Pipeline.initial_machine; cbn [Pipeline.escalation_level]. lia.
  - unfold Pipeline.attempts_bound, Pipeline.initial_machine.
    cbn [Pipeline.attempt_count Pipeline.escalation_level Pipeline.provider_index].
    lia.
  - rewrite Hr. reflexivity.
Qed.

(** With every provider failing at the transport level, a run from a
    state of level 0 makes the attempts left to the current provider, and
    the cap for each provider after it, then signals exhaustion. *)
Lemma run_all_fail (g : Pipeline.Generation) (req : Pipeline.GenerationRequest) :
  1 <= Pipeline.attempt_cap (Pipeline.policy g) ->
  Pipeline.all_fail_transport (Pipeline.providers g) ->
  forall (fuel idx att : nat) (log : list Pipeline.Event),
  att < Pipeline.attempt_cap (Pipeline.policy g) ->
  (List.length (Pipeline.providers g) - idx) * Pipeline.attempt_cap (Pipeline.policy g)
  - att < fuel ->
  exists log',
    Pipeline.run g req fuel
      {| Pipeline.provider_index := idx; Pipeline.escalation_level := 0;
         Pipeline.attempt_count := att |} log
    = Some (Pipeline.GenerationExhaustedError, log') /\
    Pipeline.invocations log'
    = Pipeline.invocations log
      + ((List.length (Pipeline.providers g) - idx)
         * Pipeline.attempt_cap (Pipeline.policy g) - att).
Proof.
  intros Hcap Hfail.
  set (cap := Pipeline.attempt_cap (Pipeline.policy g)) in *.
  set (n := List.length (Pipeline.providers g)).
  induction fuel as [|fuel IH]; intros idx att log Hatt Hfuel; [lia|].
  cbn [Pipeline.run Pipeline.provider_index].
  destruct (nth_error (Pipeline.providers g) idx) as [p|] eqn:Hnth.
  - assert (Hidx : idx < n) by (apply nth_error_Some; congruence).
    assert (Hsplit : (n - idx) * cap = (n - S idx) * cap + cap).
    { replace (n - idx) with (S (n - S idx)) by lia. simpl. lia. }
    set (rest := (n - S idx) * cap) in *.
    set (here := (n - idx) * cap) in *.
    unfold Pipeline.attempt_once.
    destruct (Hfail p (nth_error_In _ _ Hnth)
                (Pipeline.escalate (Pipeline.policy g) 0 req)
                (Pipeline.invocations log)) as [e He].
    cbn [Pipeline.escalation_level]. rewrite He.
    cbn [Pipeline.transition Pipeline.attempt_count Pipeline.escalation_level
         Pipeline.provider_index]. fold cap.
    destruct (Nat.ltb_spec (S att) cap) as [Hlt|Hge].
    + edestruct (IH idx (S att)) as (log' & Hrun & Hcount); [exact Hlt | lia |].
      exists log'. split; [exact Hrun|].
      rewrite Hcount, !invocations_app, invocations_backoff. cbn. lia.
    + unfold Pipeline.next_provider; cbn [Pipeline.provider_index].
      edestruct (IH (S idx) 0) as (log' & Hrun & Hcount); [lia | lia |].
      exists log'. split; [exact Hrun|].
      rewrite Hcount, !invocations_app, invocations_backoff. cbn. lia.
  - assert (Hidx : n <= idx) by (apply nth_error_None; exact Hnth).
    exists log. split; [reflexivity|].
    replace (n - idx) with 0 by lia. cbn. lia.
Qed.

(** C4. With N >= 1 configured providers that all fail at the transport
    level, and an attempt cap of at least one, the orchestrator ends
    (the run is not cut short by its bound), invokes providers exactly
    N x attempt-cap times, and signals GenerationExhaustedError. *)
Theorem orchestrator_exhausts_all_providers
    (g : Pipeline.Generation) (req : Pipeline.GenerationRequest) :
  1 <= List.length (Pipeline.providers g) ->
  1 <= Pipeline.attempt_cap (Pipeline.policy g) ->
  Pipeline.all_fail_transport (Pipeline.providers g) ->
  Pipeline.run g req (Pipeline.attempts_bound g) Pipeline.initial_machine []
  = Some (Pipeline.orchestrate g req) /\
  fst (Pipeline.orchestrate g req) = Pipeline.GenerationExhaustedError /\
  Pipeline.invocations (snd (Pipeline.orchestrate g req))
  = List.length (Pipeline.providers g) * Pipeline.attempt_cap (Pipeline.policy g).
Proof.
  intros _ Hcap Hfail. split; [apply run_terminates|].
  destruct (@run_all_fail g req Hcap Hfail (Pipeline.attempts_bound g) 0 0 [])
    as (log' & Hrun & Hcount).
  - lia.
  - unfold Pipeline.attempts_bound. nia.
  - fold Pipeline.initial_machine in Hrun.
    unfold Pipeline.orchestrate. rewrite Hrun. cbn [fst snd].
    split; [reflexivity|]. rewrite Hcount. cbn. lia.
Qed.

(** ** The pipeline *)


(** With every provider failing at the transport level no run returns a
    candidate. *)
Lemma run_all_fail_exhausted (g : Pipeline.Generation) (req : Pipeline.GenerationRequest)
    (fuel : nat) :
  Pipeline.all_fail_transport (Pipeline.providers g) ->
  forall (m : Pipeline.Machine) (log : list Pipeline.Event)
         (r : Pipeline.OrchestratorResult * list Pipeline.Event),
  Pipeline.run g req fuel m log = Some r ->
  fst r = Pipeline.GenerationExhaustedError.
Proof.
  intros Hfail. induction fuel as [|fuel IH]; intros m log r; [discriminate|].
  cbn [Pipeline.run].
  destruct (nth_error (Pipeline.providers g) (Pipeline.provider_index m)) as [p|] eqn:Hnth;
    [|now intros [= <-]].
  unfold Pipeline.attempt_once.
  destruct (Hfail p (nth_error_In _ _ Hnth)
              (Pipeline.escalate (Pipeline.policy g) (Pipeline.escalation_level m) req)
              (Pipeline.invocations log)) as [e ->].
  cbn [Pipeline.transition].
  destruct (_ <? _); apply IH.
Qed.

(** The Validator of the back end rejects a candidate with fewer
    meaningful elements than the minimum, as the content check of the
    front end does; it accepts exactly when its four checks pass. *)
Lemma validate_rejects_few_elements (parse : string -> option Pipeline.ParsedDocument)
    (cfg : Pipeline.ValidatorConfig) (refs : list Pipeline.AssetRef)
    (text : string) (doc : Pipeline.ParsedDocument) :
  parse text = Some doc ->
  Pipeline.count_meaningful doc < Pipeline.min_meaningful_elements cfg ->
  exists reason, fst (Pipeline.validate parse cfg refs text) = Pipeline.Reject reason.
Proof.
  intros Hparse Hfew. unfold Pipeline.validate. rewrite Hparse.
  unfold Pipeline.enough_content.
  replace (Pipeline.min_meaningful_elements cfg <=? Pipeline.count_meaningful doc)
    with false by (symmetry; apply Nat.leb_gt; exact Hfew).
  rewrite andb_false_r. cbn [fst negb].
  destruct (negb (Pipeline.well_formed (Some doc))); eauto.
Qed.


Lemma fallback_html_nonempty (b : Pipeline.ConsolidatedBundle) :
  Pipeline.fallback_html b <> EmptyString.
Proof. unfold Pipeline.fallback_html. discriminate. Qed.


(** C2. When capture, consolidation and assembly succeed and every
    configured provider raises a transport error at every call, the
    pipeline ends in a CloneResult of provenance [Fallback] whose HTML is
    the bundle's skeleton with the bundle's stylesheet inlined, and that
    HTML is not empty. *)
Theorem clone_falls_back_when_providers_fail
    (s : Pipeline.Setup) (target : string)
    (manifest : Pipeline.VisualManifest) (bundle : Pipeline.ConsolidatedBundle)
    (request : Pipeline.GenerationRequest) :
  Pipeline.capture (Pipeline.render s) (Pipeline.render_timeout s) target = inr manifest ->
  Pipeline.consolidate manifest = inr bundle ->
  Pipeline.assemble (Pipeline.assembler s) bundle = inr request ->
  Pipeline.all_fail_transport (Pipeline.configured_providers s) ->
  exists r,
    Pipeline.clone s target = inr r /\
    Pipeline.provenance r = Pipeline.Fallback /\
    Pipeline.html r = Pipeline.fallback_html bundle /\
    Pipeline.html r
    = ("<style>" ++ Pipeline.css_text (Pipeline.css bundle) ++ "</style>"
       ++ Pipeline.skeleton_html (Pipeline.skeleton bundle))%string /\
    Pipeline.html r <> EmptyString.
Proof.
  intros Hcap Hcons Hasm Hfail.
  unfold Pipeline.clone. rewrite Hcap, Hcons, Hasm.
  assert (Hex : fst (Pipeline.orchestrate (Pipeline.generation s bundle) request)
                = Pipeline.GenerationExhaustedError).
  { apply (@run_all_fail_exhausted (Pipeline.generation s bundle) request
             (Pipeline.attempts_bound (Pipeline.generation s bundle)) Hfail
             Pipeline.initial_machine []).
    apply run_terminates. }
  rewrite Hex. eexists; split; [reflexivity|].
  cbn [Pipeline.conclude Pipeline.provenance Pipeline.html].
  repeat split. apply fallback_html_nonempty.
Qed.




(** ** Consolidator *)

Lemma consolidate_node_eq (i : Pipeline.NodeInfo) (kids : list Pipeline.StyleNode)
    (table : list Pipeline.StyleProps) :
  Pipeline.consolidate_node (Pipeline.Node i kids) table
  = let (c, table1) := Pipeline.class_for (Pipeline.normalize (Pipeline.props i)) table in
    let (kids', table2) := Pipeline.consolidate_list kids table1 in
    (Pipeline.Elem (Pipeline.tag i) c (Pipeline.text i) (Pipeline.node_assets i) kids',
     table2).
Proof. reflexivity. Qed.

(** The rules are emitted in document order. *)
Lemma consolidate_node_table (n : Pipeline.StyleNode) :
  forall table,
  snd (Pipeline.consolidate_node n table)
  = fold_left Pipeline.emit
      (map (fun i => Pipeline.normalize (Pipeline.props i)) (Pipeline.preorder n)) table.
Proof.
  induction n as [i kids IH] using StyleNode_forall_ind. intros table.
  rewrite consolidate_node_eq. cbn [Pipeline.preorder map fold_left].
  unfold Pipeline.emit at 2.
  destruct (Pipeline.class_for (Pipeline.normalize (Pipeline.props i)) table)
    as [c table1]. cbn [snd].
  revert table1. induction IH as [|k kids Hk _ IHkids]; intros table1; [reflexivity|].
  cbn [Pipeline.consolidate_list flat_map]. rewrite map_app, fold_left_app, <- Hk.
  destruct (Pipeline.consolidate_node k table1) as [k' t1].
  specialize (IHkids t1).
  destruct (Pipeline.consolidate_list kids t1) as [r t2]. exact IHkids.
Qed.

Lemma prop_eqb_eq (a b : string * string) : Pipeline.prop_eqb a b = true <-> a = b.
Proof.
  destruct a as [k v], b as [k' v']. unfold Pipeline.prop_eqb. cbn [fst snd].
  rewrite andb_true_iff, !String.eqb_eq. split; [intros [-> ->] | intros [= -> ->]]; auto.
Qed.

Lemma props_eqb_eq (a b : Pipeline.StyleProps) : Pipeline.props_eqb a b = true <-> a = b.
Proof.
  revert b; induction a as [|x a IH]; intros [|y b]; cbn; split;
    try discriminate; try reflexivity.
  - rewrite andb_true_iff, prop_eqb_eq, IH. now intros [-> ->].
  - intros [= -> ->]. rewrite andb_true_iff, prop_eqb_eq, IH. auto.
Qed.

Lemma index_of_None (p : Pipeline.StyleProps) (table : list Pipeline.StyleProps) :
  Pipeline.index_of p table = None -> ~ In p table.
Proof.
  induction table as [|q table IH]; cbn; [tauto|].
  destruct (Pipeline.props_eqb p q) eqn:E; [discriminate|].
  destruct (Pipeline.index_of p table); [discriminate|].
  intros _ [->|H]; [|now apply IH].
  assert (Pipeline.props_eqb p p = true) by now apply props_eqb_eq. congruence.
Qed.

Lemma emit_NoDup (table : list Pipeline.StyleProps) (p : Pipeline.StyleProps) :
  NoDup table -> NoDup (Pipeline.emit table p).
Proof.
  intros Hnd. unfold Pipeline.emit, Pipeline.class_for.
  destruct (Pipeline.index_of p table) eqn:E; cbn [snd]; [exact Hnd|].
  apply index_of_None in E.
  apply NoDup_rev in Hnd. rewrite <- (rev_involutive (table ++ [p])).
  apply NoDup_rev. rewrite rev_app_distr. cbn.
  constructor; [now rewrite <- in_rev | exact Hnd].
Qed.

Lemma fold_emit_NoDup (ps table : list Pipeline.StyleProps) :
  NoDup table -> NoDup (fold_left Pipeline.emit ps table).
Proof.
  revert table; induction ps as [|p ps IH]; intros table H; cbn; [exact H|].
  apply IH, emit_NoDup, H.
Qed.

Lemma number_rules_declarations (from : nat) (table : list Pipeline.StyleProps) :
  map Pipeline.declarations (Pipeline.number_rules from table) = table.
Proof.
  revert from; induction table as [|p table IH]; intros from; cbn; [reflexivity|].
  now rewrite IH.
Qed.

Lemma number_rules_classes (from : nat) (table : list Pipeline.StyleProps) :
  map Pipeline.rule_class (Pipeline.number_rules from table)
  = seq from (List.length table).
Proof.
  revert from; induction table as [|p table IH]; intros from; cbn; [reflexivity|].
  now rewrite IH.
Qed.

(** The rules of the stylesheet are those of the nodes in document order,
    without duplicates, and their classes are numbered in that order:
    nothing in the Consolidator depends on an unordered traversal. *)
Lemma consolidate_rules_in_document_order
    (m : Pipeline.VisualManifest) (b : Pipeline.ConsolidatedBundle) :
  Pipeline.consolidate m = inr b ->
  map Pipeline.declarations (Pipeline.css b)
  = Pipeline.rules_in_document_order (Pipeline.root m) /\
  NoDup (map Pipeline.declarations (Pipeline.css b)) /\
  map Pipeline.rule_class (Pipeline.css b)
  = seq 0 (List.length (Pipeline.css b)).
Proof.
  intros H1.
  unfold Pipeline.consolidate in H1.
  destruct (existsb Pipeline.significant _); [|discriminate].
  pose proof (consolidate_node_table (Pipeline.root m) []) as Htable.
  destruct (Pipeline.consolidate_node (Pipeline.root m) []) as [sk table].
  cbn [snd] in Htable. injection H1 as <-. cbn [Pipeline.css].
  rewrite number_rules_declarations, number_rules_classes.
  split; [exact Htable|]. split.
  - rewrite Htable. apply fold_emit_NoDup. constructor.
  - f_equal. rewrite <- (number_rules_declarations 0 table) at 1.
    now rewrite length_map.
Qed.

(** ** Prompt Assembler *)

Lemma shallow_drop_links (dec : Pipeline.AssetRef -> bool) (s : Pipeline.Skeleton) :
  Pipeline.shallow (Pipeline.drop_links dec s) = Pipeline.shallow s.
Proof. destruct s; reflexivity. Qed.

Lemma shallow_collapse (low : Pipeline.Skeleton -> bool) (keep : nat)
    (s : Pipeline.Skeleton) :
  Pipeline.shallow (Pipeline.collapse low keep s) = Pipeline.shallow s.
Proof. destruct s, keep; reflexivity. Qed.

Lemma top_level_drop_links (dec : Pipeline.AssetRef -> bool) (s : Pipeline.Skeleton) :
  Pipeline.top_level (Pipeline.drop_links dec s) = Pipeline.top_level s.
Proof.
  destruct s as [tg c txt links kids]. cbn. f_equal.
  rewrite map_map. apply map_ext. intros k. apply shallow_drop_links.
Qed.

(** Collapsing never removes the root nor one of its children. *)
Lemma top_level_collapse (low : Pipeline.Skeleton -> bool) (depth : nat)
    (s : Pipeline.Skeleton) :
  Pipeline.top_level (Pipeline.collapse low (S depth) s) = Pipeline.top_level s.
Proof.
  destruct s as [tg c txt links kids]. cbn. f_equal.
  rewrite map_map. apply map_ext. intros k. apply shallow_collapse.
Qed.

Lemma truncation_keeps_top_level (cfg : Pipeline.AssemblerConfig)
    (b b' : Pipeline.ConsolidatedBundle) :
  In b' (Pipeline.truncations cfg b) ->
  Pipeline.top_level (Pipeline.skeleton b') = Pipeline.top_level (Pipeline.skeleton b) /\
  Pipeline.css b' = Pipeline.css b.
Proof.
  unfold Pipeline.truncations, Pipeline.maximal_truncation.
  intros [<-|[<-|[<-|[]]]]; cbn [Pipeline.skeleton Pipeline.css Pipeline.collapse_deep
    Pipeline.drop_decorative].
  - auto.
  - split; [apply top_level_drop_links | reflexivity].
  - split; [|reflexivity]. now rewrite top_level_collapse, top_level_drop_links.
Qed.

(** C7. For a bundle whose text exceeds the budget, the request that the
    Prompt Assembler returns has a payload within the budget, which is the
    text of a bundle with the same top-level nodes and the same stylesheet
    as the original; and when the Assembler fails with
    BundleTooLargeError the maximal truncation exceeds the budget. *)
Theorem assemble_within_budget
    (cfg : Pipeline.AssemblerConfig) (b : Pipeline.ConsolidatedBundle) :
  Pipeline.budget cfg < Pipeline.size b ->
  match Pipeline.assemble cfg b with
  | inr request =>
      String.length (Pipeline.payload request) <= Pipeline.budget cfg /\
      exists b',
        Pipeline.payload request = Pipeline.serialize b' /\
        b' <> b /\
        Pipeline.top_level (Pipeline.skeleton b') = Pipeline.top_level (Pipeline.skeleton b) /\
        Pipeline.css b' = Pipeline.css b
  | inl Pipeline.BundleTooLargeError =>
      Pipeline.budget cfg < Pipeline.size (Pipeline.maximal_truncation cfg b)
  end.
Proof.
  intros Hover. unfold Pipeline.assemble.
  destruct (find (Pipeline.fits cfg) (Pipeline.truncations cfg b)) as [b'|] eqn:Hfind.
  - apply find_some in Hfind. destruct Hfind as [Hin Hfits].
    unfold Pipeline.fits in Hfits. apply Nat.leb_le in Hfits.
    split; [exact Hfits|]. exists b'. split; [reflexivity|]. split.
    + intros ->. lia.
    + apply (@truncation_keeps_top_level cfg b b' Hin).
  - pose proof (find_none _ _ Hfind (Pipeline.maximal_truncation cfg b)) as Hmax.
    unfold Pipeline.fits in Hmax. apply Nat.leb_gt, Hmax.
    unfold Pipeline.truncations. cbn. auto.
Qed.

(** ** The theorems at the sample inputs *)

(** C8 at the input [  example.com ]: one call, with
    [https://example.com]. *)
Lemma handleSubmit_formats_url_witness :
  CloneForm.begins_with_scheme (JS.lit "https://example.com") = true /\
  JS.lit "https://example.com"
  = (if CloneForm.begins_with_scheme (JS.trim (JS.lit "  example.com "))
     then JS.trim (JS.lit "  example.com ")
     else JS.lit "https://" ++ JS.trim (JS.lit "  example.com ")).
Proof.
  apply (proj2 (proj2 (handleSubmit_formats_url (JS.lit "  example.com ")))
               (JS.lit "https://example.com")).
  left. reflexivity.
Defined.

(** C6 at a document of six meaningful elements and 75 code units of
    text: the check leaves the state as it was. *)
Lemma onLoad_flags_minimal_content_witness :
  CloneResult.onLoad (inr (Some Sample.rich_document)) CloneResult.initial
  = CloneResult.initial.
Proof.
  apply (proj1 (proj2 (proj2 (onLoad_flags_minimal_content
                                Sample.rich_document CloneResult.initial)))).
  - apply Nat.leb_le. reflexivity.
  - apply Nat.leb_le. reflexivity.
Defined.

(** C6 as stated fails at a complete document whose body holds one
    paragraph of 63 code units: its text is above the threshold, and yet
    the check flags it, for want of five meaningful elements. *)
Lemma onLoad_rejects_long_text_with_one_element :
  CloneResult.full_structure Sample.sparse_document = true /\
  50 < JS.length (CloneResult.bodyText Sample.sparse_document) /\
  List.length (CloneResult.visibleElements Sample.sparse_document) = 1 /\
  CloneResult.htmlError
    (CloneResult.onLoad (inr (Some Sample.sparse_document)) CloneResult.initial)
  = Some (CloneResult.minimal_content_message Sample.sparse_document) /\
  CloneResult.onLoad (inr (Some Sample.sparse_document)) CloneResult.initial
  <> CloneResult.initial.
Proof.
  split; [reflexivity|]. split; [apply Nat.ltb_lt; reflexivity|].
  split; [reflexivity|]. split; [reflexivity|]. discriminate.
Qed.

(** The Validator of the back end agrees: with the sample thresholds a
    text of 60 characters without meaningful elements is rejected for too
    little content. *)
Lemma validate_rejects_text_without_elements :
  Pipeline.validate Sample.parser Sample.thresholds []
    "<html><body>A long text that is not inside any element.</body></html>"
  = (Pipeline.Reject Pipeline.TooLittleContent, 3).
Proof. reflexivity. Qed.

(** C3 at a page with a relative, a root-relative and a protocol-relative
    reference. *)
Lemma capture_urls_absolute_witness :
  exists m,
    Pipeline.capture Sample.renderer 30 Sample.target = inr m /\
    Forall Pipeline.absolute_asset (Pipeline.assets m) /\
    Forall Pipeline.absolute_asset (Pipeline.tree_assets (Pipeline.root m)).
Proof.
  eexists. split; [reflexivity|].
  apply (@capture_urls_absolute Sample.renderer 30 Sample.target).
  - intros page [= <-]. reflexivity.
  - reflexivity.
Defined.

(** C4 at two failing providers and a cap of three: six invocations. *)
Lemma orchestrator_exhausts_all_providers_witness :
  Pipeline.run Sample.all_failing Sample.request
    (Pipeline.attempts_bound Sample.all_failing) Pipeline.initial_machine []
  = Some (Pipeline.orchestrate Sample.all_failing Sample.request) /\
  fst (Pipeline.orchestrate Sample.all_failing Sample.request)
  = Pipeline.GenerationExhaustedError /\
  Pipeline.invocations (snd (Pipeline.orchestrate Sample.all_failing Sample.request))
  = 2 * 3.
Proof.
  apply (@orchestrator_exhausts_all_providers Sample.all_failing Sample.request).
  - apply Nat.leb_le. reflexivity.
  - apply Nat.leb_le. reflexivity.
  - intros p [<-|[<-|[]]] req calls; eexists; reflexivity.
Defined.

(** C2 at the sample pipeline, whose two providers fail. *)
Lemma clone_falls_back_when_providers_fail_witness :
  exists r,
    Pipeline.clone Sample.setup Sample.target = inr r /\
    Pipeline.provenance r = Pipeline.Fallback /\
    Pipeline.html r <> EmptyString.
Proof.
  edestruct (@clone_falls_back_when_providers_fail Sample.setup Sample.target)
    as (r & Hr & Hprov & _ & _ & Hne).
  - reflexivity.
  - reflexivity.
  - reflexivity.
  - intros p [<-|[<-|[]]] req calls; eexists; reflexivity.
  - exists r. split; [exact Hr|]. split; [exact Hprov | exact Hne].
Defined.



(** C7 at a bundle of 258 characters and a budget of 130: the payload
    is the maximal truncation, of 93 characters. *)
Lemma assemble_within_budget_witness :
  match Pipeline.assemble Sample.tight Sample.bundle with
  | inr request =>
      String.length (Pipeline.payload request) <= Pipeline.budget Sample.tight /\
      exists b',
        Pipeline.payload request = Pipeline.serialize b' /\
        b' <> Sample.bundle /\
        Pipeline.top_level (Pipeline.skeleton b')
        = Pipeline.top_level (Pipeline.skeleton Sample.bundle) /\
        Pipeline.css b' = Pipeline.css Sample.bundle
  | inl Pipeline.BundleTooLargeError =>
      Pipeline.budget Sample.tight
      < Pipeline.size (Pipeline.maximal_truncation Sample.tight Sample.bundle)
  end.
Proof.
  apply (@assemble_within_budget Sample.tight Sample.bundle).
  apply Nat.ltb_lt. vm_compute. reflexivity.
Defined.

(* ===================================================================== *)
(** * Further properties of the front end *)
(* ===================================================================== *)

(** ** Trimming *)

Lemma trimStart_head (s : JS.str) : JSString.head_not_space (JS.trimStart s).
Proof.
  induction s as [|c s IH]; simpl; [exact I|].
  destruct (JS.isWhiteSpace c) eqn:E; [exact IH | exact E].
Qed.

Lemma trimStart_fixed (s : JS.str) : JSString.head_not_space s -> JS.trimStart s = s.
Proof. destruct s as [|c s]; simpl; [reflexivity|]. now intros ->. Qed.

Lemma trimStart_before (l r : JS.str) (c : JS.char) :
  JS.isWhiteSpace c = false ->
  JS.trimStart (l ++ c :: r) = JS.trimStart l ++ c :: r.
Proof.
  intros Hc. induction l as [|a l IH]; simpl; [now rewrite Hc|].
  destruct (JS.isWhiteSpace a); [exact IH | reflexivity].
Qed.

Lemma trim_fixed (s : JS.str) :
  JSString.head_not_space s -> JSString.head_not_space (rev s) -> JS.trim s = s.
Proof.
  intros Hhead Hlast. unfold JS.trim, JS.trimEnd.
  now rewrite (trimStart_fixed s Hhead), (trimStart_fixed _ Hlast), rev_involutive.
Qed.

Lemma trim_last (s : JS.str) : JSString.head_not_space (rev (JS.trim s)).
Proof.
  unfold JS.trim, JS.trimEnd. rewrite rev_involutive. apply trimStart_head.
Qed.

Lemma trim_head (s : JS.str) : JSString.head_not_space (JS.trim s).
Proof.
  unfold JS.trim, JS.trimEnd.
  pose proof (trimStart_head s) as Hhead.
  destruct (JS.trimStart s) as [|c t]; [exact I|].
  cbn [rev]. rewrite (@trimStart_before (rev t) [] c Hhead), rev_app_distr.
  exact Hhead.
Qed.

Lemma trim_idempotent (s : JS.str) : JS.trim (JS.trim s) = JS.trim s.
Proof. apply trim_fixed; [apply trim_head | apply trim_last]. Qed.

Lemma head_not_space_app (s t : JS.str) :
  s <> [] -> JSString.head_not_space s -> JSString.head_not_space (s ++ t).
Proof. destruct s; [congruence | auto]. Qed.

(** ** The clone form *)

Lemma submitted_cases (url : JS.str) :
  (JS.trim url = [] /\ CloneForm.submitted url = []) \/
  (JS.trim url <> [] /\ CloneForm.begins_with_scheme (JS.trim url) = true /\
   CloneForm.submitted url = [JS.trim url]) \/
  (JS.trim url <> [] /\ CloneForm.begins_with_scheme (JS.trim url) = false /\
   CloneForm.submitted url = [JS.lit "https://" ++ JS.trim url]).
Proof.
  unfold CloneForm.submitted, CloneForm.handleSubmit.
  rewrite has_http_scheme_begins.
  destruct (JS.trim url) as [|c t] eqn:Et; [left; auto|].
  right. destruct (CloneForm.begins_with_scheme (c :: t)); [left | right];
    repeat split; discriminate.
Qed.

Lemma submitted_fixed (u : JS.str) :
  u <> [] -> JS.trim u = u -> CloneForm.begins_with_scheme u = true ->
  CloneForm.submitted u = [u].
Proof.
  intros Hne Htrim Hscheme.
  destruct (submitted_cases u) as [[H _]|[(_ & _ & H)|(_ & H & _)]];
    rewrite Htrim in *; congruence.
Qed.

Lemma https_prefix_scheme (t : JS.str) :
  CloneForm.begins_with_scheme (JS.lit "https://" ++ t) = true.
Proof.
  unfold CloneForm.begins_with_scheme.
  replace (JS.starts_with_ci (JS.lit "https://") (JS.lit "https://" ++ t)) with true;
    [apply orb_true_r | reflexivity].
Qed.

Lemma https_prefix_trimmed (t : JS.str) :
  t <> [] -> JS.trim t = t -> JS.trim (JS.lit "https://" ++ t) = JS.lit "https://" ++ t.
Proof.
  intros Hne Htrim. apply trim_fixed.
  - reflexivity.
  - rewrite rev_app_distr. apply head_not_space_app.
    + intros H. apply (f_equal (@rev _)) in H. rewrite rev_involutive in H. now cbn in H.
    + rewrite <- Htrim. apply trim_last.
Qed.

Lemma starts_with_ci_length (p s : JS.str) :
  JS.starts_with_ci p s = true -> List.length p <= List.length s.
Proof.
  unfold JS.starts_with_ci.
  revert s; induction p as [|a p IH]; intros s; cbn; [lia|].
  destruct s as [|c s]; [discriminate|].
  destruct (JS.ci_eq a c); [|discriminate].
  intros H. apply IH in H. cbn. lia.
Qed.

(** What the form passes is trimmed and carries its scheme. *)
Lemma submitted_normal (url u : JS.str) :
  In u (CloneForm.submitted url) ->
  u <> [] /\ JS.trim u = u /\ CloneForm.begins_with_scheme u = true.
Proof.
  intros Hin.
  destruct (submitted_cases url) as [[_ H]|[(Hne & Hs & H)|(Hne & Hs & H)]];
    rewrite H in Hin; cbn in Hin; [destruct Hin | |];
    destruct Hin as [<-|[]].
  - split; [exact Hne|]. split; [apply trim_idempotent | exact Hs].
  - split; [discriminate|].
    split; [apply https_prefix_trimmed; [exact Hne | apply trim_idempotent]|].
    apply https_prefix_scheme.
Qed.

(** X1. Formatting is idempotent: a URL that the form passed, typed into
    the form again, is passed as it is. *)
Theorem handleSubmit_idempotent (url u : JS.str) :
  In u (CloneForm.submitted url) -> CloneForm.submitted u = [u].
Proof.
  intros Hin. destruct (submitted_normal url u Hin) as (Hne & Htrim & Hs).
  now apply submitted_fixed.
Qed.

(** X2. The URL that the form passes neither begins nor ends with white
    space, and has at least the seven code units of [http://]. *)
Theorem handleSubmit_passes_trimmed_url (url u : JS.str) :
  In u (CloneForm.submitted url) ->
  (exists first, hd_error u = Some first /\ JS.isWhiteSpace first = false) /\
  (exists last, hd_error (rev u) = Some last /\ JS.isWhiteSpace last = false) /\
  7 <= JS.length u.
Proof.
  intros Hin. destruct (submitted_normal url u Hin) as (Hne & Htrim & Hs).
  pose proof (trim_head u) as Hhead. pose proof (trim_last u) as Hlast.
  rewrite Htrim in Hhead, Hlast. split; [|split].
  - destruct u as [|c u]; [congruence|]. exists c. auto.
  - destruct (rev u) as [|c r] eqn:Hrev.
    + apply (f_equal (@rev _)) in Hrev. rewrite rev_involutive in Hrev. now cbn in Hrev.
    + exists c. auto.
  - apply orb_true_iff in Hs.
    destruct Hs as [Hs|Hs]; apply starts_with_ci_length in Hs; cbn in Hs;
      unfold JS.length; lia.
Qed.

(** X3. The submit button is disabled exactly when the form is loading
    or the handler would pass nothing. *)
Theorem submit_button_matches_handler (isLoading : bool) (url : JS.str) :
  FormControls.submit_disabled isLoading url
  = isLoading || match CloneForm.submitted url with [] => true | _ :: _ => false end.
Proof.
  unfold FormControls.submit_disabled. f_equal.
  destruct (submitted_cases url) as [[Ht H]|[(Hne & _ & H)|(Hne & _ & H)]];
    rewrite H; destruct (JS.trim url); try congruence; reflexivity.
Qed.

Lemma eat_app_self (p r : JS.str) : JSString.eat p (p ++ r) = Some r.
Proof.
  induction p as [|a p IH]; simpl; [reflexivity|]. now rewrite N.eqb_refl.
Qed.

(** X4. The label of a demo button is its URL without the leading
    [https://].  When the handler runs with [https://] and a trimmed host
    in the field, as after a click on a demo button, it passes that URL as
    it is; so it does for each of the four demo URLs, each of which is
    [https://] followed by its label. *)
Theorem demo_url_passed_unchanged (host : JS.str) :
  FormControls.demo_label (JS.lit "https://" ++ host) = host /\
  (host <> [] -> JS.trim host = host ->
   CloneForm.submitted (JS.lit "https://" ++ host) = [JS.lit "https://" ++ host]) /\
  Forall (fun demoUrl =>
            CloneForm.submitted demoUrl = [demoUrl] /\
            JS.lit "https://" ++ FormControls.demo_label demoUrl = demoUrl)
         FormControls.demoUrls.
Proof.
  split; [|split].
  - unfold FormControls.demo_label.
    destruct (JS.lit "https://" ++ host) as [|c r] eqn:E; [discriminate|].
    cbn [JSString.replace_first]. rewrite <- E, eat_app_self. reflexivity.
  - intros Hne Htrim. apply submitted_fixed;
      [discriminate | now apply https_prefix_trimmed | apply https_prefix_scheme].
  - repeat constructor; reflexivity.
Qed.

(** ** The home page *)

(** X5. A run of [handleClone] overwrites the four cells: what it leaves
    does not depend on the state it started from, so that nothing of an
    earlier run stays. *)
Theorem handleClone_forgets_earlier_state
    (cloneWebsite : JS.str -> Exn.result Home.CloneResponse)
    (url : JS.str) (s1 s2 : Home.state) :
  Home.handleClone cloneWebsite url s1 = Home.handleClone cloneWebsite url s2.
Proof.
  unfold Home.handleClone, Home.handleClone_settle.
  destruct (cloneWebsite url); reflexivity.
Qed.

(** X6. After a run the page renders the result exactly when
    [cloneWebsite] resolved, and the error banner exactly when it threw
    with a message that is not empty, never both; when the message is
    empty it renders neither. *)
Theorem home_renders_result_or_banner
    (cloneWebsite : JS.str -> Exn.result Home.CloneResponse)
    (url : JS.str) (s : Home.state) :
  let final := Home.handleClone cloneWebsite url s in
  HomeView.shows_result final && HomeView.shows_error final = false /\
  match cloneWebsite url with
  | inr _ =>
      HomeView.shows_result final = true /\ HomeView.shows_error final = false
  | inl err =>
      HomeView.shows_result final = false /\
      HomeView.shows_error final
      = JS.truthy (Exn.message_or (JS.lit "Failed to clone website") err)
  end /\
  (cloneWebsite url = inl (Exn.ErrorObject []) ->
   HomeView.shows_result final = false /\ HomeView.shows_error final = false).
Proof.
  cbv zeta. unfold Home.handleClone, Home.handleClone_settle,
    HomeView.shows_result, HomeView.shows_error.
  destruct (cloneWebsite url) as [err|result]; cbn.
  - split; [reflexivity|]. split; [split; reflexivity|].
    intros [= ->]. split; reflexivity.
  - split; [reflexivity|]. split; [split; reflexivity|]. discriminate.
Qed.

(** X7. [handleReset] after a run brings the page back to its initial
    state; from any state it hides the result and the banner and leaves
    [isLoading] as it is. *)
Theorem handleReset_restores_initial
    (cloneWebsite : JS.str -> Exn.result Home.CloneResponse)
    (url : JS.str) (s : Home.state) :
  Home.handleReset (Home.handleClone cloneWebsite url s) = HomeView.initial /\
  HomeView.shows_result (Home.handleReset s) = false /\
  HomeView.shows_error (Home.handleReset s) = false /\
  Home.isLoading (Home.handleReset s) = Home.isLoading s /\
  Home.handleReset (Home.handleReset s) = Home.handleReset s.
Proof.
  split; [|repeat split].
  unfold Home.handleClone, Home.handleClone_settle.
  destruct (cloneWebsite url); reflexivity.
Qed.

(** X8. An attempt to submit the form leaves the page as it is when the
    submit button is disabled (the page is loading or the field is blank)
    or the browser finds the field invalid.  Otherwise [handleClone] runs
    once, and [originalUrl], which the result view shows and opens, ends
    as the URL that the form passed: it begins with [http://] or
    [https://], has no white space around it, and [isLoading] ends
    false. *)
Theorem submit_sets_original_url
    (valid : JS.str -> bool)
    (cloneWebsite : JS.str -> Exn.result Home.CloneResponse)
    (input : JS.str) (s : Home.state) :
  (FormControls.submit_disabled (Home.isLoading s) input = true \/ valid input = false ->
   HomeView.submit valid cloneWebsite input s = s) /\
  (FormControls.submit_disabled (Home.isLoading s) input = false ->
   valid input = true ->
   let final := HomeView.submit valid cloneWebsite input s in
   CloneForm.submitted input = [Home.originalUrl final] /\
   final = Home.handleClone cloneWebsite (Home.originalUrl final) s /\
   CloneForm.begins_with_scheme (Home.originalUrl final) = true /\
   JS.trim (Home.originalUrl final) = Home.originalUrl final /\
   Home.isLoading final = false).
Proof.
  unfold HomeView.submit. split.
  - intros [-> | ->]; [reflexivity | now rewrite orb_true_r].
  - intros Hbutton Hvalid. rewrite Hbutton, Hvalid. cbn [negb orb]. cbv zeta.
    assert (Hone : exists u, CloneForm.submitted input = [u]).
    { unfold FormControls.submit_disabled in Hbutton.
      apply orb_false_iff in Hbutton. destruct Hbutton as [_ Hblank].
      destruct (submitted_cases input) as [[H _]|[(_ & _ & H)|(_ & _ & H)]];
        [rewrite H in Hblank; discriminate | eauto | eauto]. }
    destruct Hone as [u Hu].
    destruct (submitted_normal input u) as (_ & Htrim & Hs); [rewrite Hu; now left|].
    rewrite Hu. cbn [fold_left].
    assert (Hurl : Home.originalUrl (Home.handleClone cloneWebsite u s) = u).
    { unfold Home.handleClone, Home.handleClone_settle.
      destruct (cloneWebsite u); reflexivity. }
    rewrite Hurl. split; [reflexivity|]. split; [reflexivity|].
    split; [exact Hs|]. split; [exact Htrim|].
    unfold Home.handleClone, Home.handleClone_settle.
    destruct (cloneWebsite u); reflexivity.
Qed.

(** ** The home page with preview *)

(** Case analysis on how the two promises settled: each side of an
    equivalence is taken apart, and closed by the equations at hand. *)
Ltac preview_cases :=
  repeat match goal with
         | |- _ /\ _ => split
         | |- _ <-> _ => split
         | |- _ -> _ => intro
         | |- ~ _ => intro
         | H : _ /\ _ |- _ => destruct H
         | H : _ \/ _ |- _ => destruct H
         | H : exists _, _ |- _ => destruct H
         | H : False |- _ => destruct H
         | H : inr _ = inr _ |- _ => injection H as H
         | H : Some _ = Some _ |- _ => injection H as H
         | H : ?x = ?y |- _ => is_var x; subst x
         | H : ?x = ?y |- _ => is_var y; subst y
         end;
  try congruence; eauto 10.

(** X9. In the page with preview, with nothing running during the run but
    the load listener of the preview, [handleClone] asks for the
    screenshot only when [cloneWebsite] resolved; it leaves both a clone
    and an error exactly when the clone came and the screenshot threw, and
    no error exactly when both resolved.  It resets the screenshot of the
    clone: that one ends set exactly when the listener captured one while
    the screenshot of the original was awaited, which takes a truthy
    clone; and the comparison is on display at the end exactly when, in
    addition, both screenshots are truthy. *)
Theorem preview_handleClone_outcomes
    (cloneWebsite getScreenshot : JS.str -> Exn.result (option JS.str))
    (captured : option JS.str) (inputUrl : JS.str) (s : PreviewHome.state) :
  let run := PreviewHome.handleClone cloneWebsite getScreenshot captured inputUrl s in
  let final := fst run in
  (PreviewHome.url final = inputUrl /\ PreviewHome.isLoading final = false) /\
  (In (PreviewHome.GetScreenshot inputUrl) (snd run) <->
   exists html, cloneWebsite inputUrl = inr html) /\
  (PreviewHome.clonedHtml final <> None /\ PreviewHome.error final <> None <->
   exists html err,
     cloneWebsite inputUrl = inr (Some html) /\ getScreenshot inputUrl = inl err) /\
  (PreviewHome.error final = None <->
   exists html shot,
     cloneWebsite inputUrl = inr html /\ getScreenshot inputUrl = inr shot) /\
  (PreviewHome.cloneScreenshot final <> None <->
   exists html dataUrl,
     cloneWebsite inputUrl = inr (Some html) /\ JS.truthy html = true /\
     captured = Some dataUrl) /\
  (PreviewHome.shows_comparison final = true <->
   exists html shot dataUrl,
     cloneWebsite inputUrl = inr (Some html) /\ JS.truthy html = true /\
     getScreenshot inputUrl = inr (Some shot) /\ JS.truthy shot = true /\
     captured = Some dataUrl /\ JS.truthy dataUrl = true).
Proof.
  cbv zeta. unfold PreviewHome.handleClone, PreviewHome.shows_comparison,
    PreviewHome.shows_preview.
  destruct (cloneWebsite inputUrl) as [err|[html|]];
    [| destruct (JS.truthy html) eqn:Hhtml |];
    (destruct captured as [dataUrl|]; [destruct (JS.truthy dataUrl) eqn:Hdata|]);
    try (destruct (getScreenshot inputUrl) as [err|[shot|]];
         [| destruct (JS.truthy shot) eqn:Hshot |]);
    cbn; try rewrite Hhtml; try rewrite Hdata; try rewrite Hshot; cbn;
    try rewrite Hhtml; try rewrite Hdata; try rewrite Hshot; cbn;
    preview_cases.
Qed.


Lemma eat_Some (p s r : JS.str) : JSString.eat p s = Some r -> s = p ++ r.
Proof.
  revert s; induction p as [|a p IH]; intros s; cbn; [now intros [= ->]|].
  destruct s as [|c s]; [discriminate|].
  destruct (N.eqb_spec a c) as [->|]; [|discriminate].
  intros H. now rewrite (IH _ H).
Qed.

Lemma strip_scheme_suffix (u : JS.str) :
  exists scheme, u = scheme ++ JSString.strip_scheme u.
Proof.
  unfold JSString.strip_scheme.
  destruct (JSString.eat (JS.lit "http") u) as [r|] eqn:E1; [|now exists []].
  apply eat_Some in E1.
  destruct r as [|c r'].
  - cbn. now exists [].
  - destruct (N.eqb_spec c 115) as [->|Hc].
    + destruct (JSString.eat (JS.lit "://") r') as [rest|] eqn:E2.
      * apply eat_Some in E2. exists (JS.lit "https://"). rewrite E1, E2. reflexivity.
      * cbn. now exists [].
    + destruct (JSString.eat (JS.lit "://") (c :: r')) as [rest|] eqn:E2.
      * apply eat_Some in E2. exists (JS.lit "http://"). rewrite E1, E2. reflexivity.
      * now exists [].
Qed.

Lemma dash_non_word_units (s : JS.str) :
  Forall (fun c => JSString.is_word c || N.eqb c 45 = true) (JSString.dash_non_word s).
Proof.
  unfold JSString.dash_non_word. apply Forall_map, Forall_forall. intros c _.
  destruct (JSString.is_word c) eqn:E; [now rewrite E | reflexivity].
Qed.

Lemma download_name_units (u : JS.str) :
  Forall (fun c => PreviewHome.name_unit c = true) (PreviewHome.download_name u).
Proof.
  unfold PreviewHome.download_name. apply Forall_app; split.
  - eapply Forall_impl; [|apply dash_non_word_units].
    intros c H. unfold PreviewHome.name_unit. now rewrite H.
  - repeat constructor.
Qed.

(** A string whose surrogates are all paired is encoded as it is. *)
Lemma toUSVString_well_formed (s : JS.str) :
  PreviewHome.isWellFormed s = true -> PreviewHome.toUSVString s = s.
Proof.
  assert (H : forall n (t : JS.str), List.length t <= n ->
              PreviewHome.isWellFormed t = true -> PreviewHome.toUSVString t = t).
  { induction n as [|n IH]; intros [|c rest] Hlen; try reflexivity; cbn in Hlen; [lia|].
    cbn [PreviewHome.isWellFormed PreviewHome.toUSVString].
    destruct (PreviewHome.is_leading c).
    - destruct rest as [|d rest']; [discriminate|].
      destruct (PreviewHome.is_trailing d); [|discriminate].
      cbn [andb]. intros Hrest. rewrite IH; [reflexivity | cbn in Hlen; lia | exact Hrest].
    - destruct (PreviewHome.is_trailing c); [discriminate|].
      cbn [negb andb]. intros Hrest. rewrite IH; [reflexivity | lia | exact Hrest]. }
  apply (H (List.length s)). lia.
Qed.

(** X11. [handleDownload] saves nothing when there is no clone.
    Otherwise it calls [saveAs] once, with a blob of type [text/html] made
    of the clone alone, which holds the clone with each unpaired surrogate
    replaced by U+FFFD, and so the clone itself when it is well formed.
    The name is made of ASCII letters, digits, underscores, hyphens and
    full stops only (no slash, no space); it ends in [-clone.html] and its
    stem is no longer than the URL. *)
Theorem handleDownload_saves_under_safe_name (s : PreviewHome.state) :
  match PreviewHome.handleDownload s with
  | [] => PreviewHome.shows_preview s = false
  | [PreviewHome.SaveAs content name] =>
      (exists html,
         PreviewHome.clonedHtml s = Some html /\
         PreviewHome.blob_parts content = [html] /\
         PreviewHome.blob_text content = PreviewHome.toUSVString html /\
         (PreviewHome.isWellFormed html = true ->
          PreviewHome.blob_text content = html)) /\
      PreviewHome.shows_preview s = true /\
      PreviewHome.blob_type content = JS.lit "text/html" /\
      Forall (fun c => PreviewHome.name_unit c = true) name /\
      ~ In 47%N name /\ ~ In 92%N name /\ ~ In 32%N name /\
      exists stem,
        name = stem ++ JS.lit "-clone.html" /\
        List.length stem <= List.length (PreviewHome.url s)
  | _ => False
  end.
Proof.
  unfold PreviewHome.handleDownload, PreviewHome.shows_preview, PreviewHome.truthy_cell.
  destruct (PreviewHome.clonedHtml s) as [html|]; [|reflexivity].
  destruct (JS.truthy html); cbn [negb]; [|reflexivity].
  pose proof (download_name_units (PreviewHome.url s)) as Hunits.
  assert (Hnot : forall c, PreviewHome.name_unit c = false ->
                           ~ In c (PreviewHome.download_name (PreviewHome.url s))).
  { intros c Hc Hin. rewrite Forall_forall in Hunits.
    specialize (Hunits c Hin). congruence. }
  split.
  { exists html. unfold PreviewHome.blob_text.
    cbn [PreviewHome.blob_parts flat_map]. rewrite app_nil_r.
    split; [reflexivity|]. split; [reflexivity|]. split; [reflexivity|].
    apply toUSVString_well_formed. }
  repeat split; try exact Hunits; try (apply Hnot; reflexivity).
  exists (JSString.dash_non_word (JSString.strip_scheme (PreviewHome.url s))).
  split; [reflexivity|].
  unfold JSString.dash_non_word. rewrite length_map.
  destruct (strip_scheme_suffix (PreviewHome.url s)) as [scheme H].
  rewrite H at 2. rewrite length_app. lia.
Qed.



(** ** The API route, further *)

(** Destructs, one after the other, what a run of [POST] depends on. *)
Ltac route_cases :=
  repeat match goal with
         | |- context [match ?x with inl _ => _ | inr _ => _ end] =>
             let E := fresh "E" in destruct x eqn:E; cbn [Route.throw Route.ret]
         | |- context [if negb ?b then _ else _] =>
             let E := fresh "E" in destruct b eqn:E; cbn [negb]
         | |- context [if ?b then _ else _] =>
             let E := fresh "E" in destruct b eqn:E
         end.

Ltac route_unfold :=
  unfold Route.respond, Route.forwarded, Route.POST, Route.try_catch, Route.POST_try,
    Route.bind, Route.lift, Route.fetch, Route.bind, Route.emit, Route.lift,
    Route.NextResponse_json.

Lemma truthy_is_some (url : option Json.value) :
  Json.truthy url = true -> exists v, url = Some v.
Proof. destruct url; [eauto | discriminate]. Qed.

(** X13. The handler forwards at most one request, and which one does not
    depend on how the back end answers: none unless the body has a truthy
    [url], and then a POST of [{ url }] with a JSON content type to the
    clone endpoint of the back end. *)
Theorem POST_forwards_at_most_once
    (backend backend' : Route.FetchRequest -> Exn.result Route.BackendResponse)
    (request : Route.NextRequest) :
  Route.forwarded backend request = Route.forwarded backend' request /\
  match Route.forwarded backend request with
  | [] =>
      ~ exists body v,
          Route.request_json request = inr body /\
          Json.property (JS.lit "url") body = inr (Some v) /\
          Json.truthy (Some v) = true
  | [sent] =>
      exists body v,
        Route.request_json request = inr body /\
        Json.property (JS.lit "url") body = inr (Some v) /\
        Json.truthy (Some v) = true /\
        sent = RouteFacts.forward_of v
  | _ :: _ :: _ => False
  end.
Proof.
  assert (Hshape : forall b,
    Route.forwarded b request
    = match Route.request_json request with
      | inl _ => []
      | inr body =>
          match Json.property (JS.lit "url") body with
          | inl _ => []
          | inr url =>
              if Json.truthy url
              then [RouteFacts.forward_of
                      match url with Some v => v | None => Json.Null end]
              else []
          end
      end).
  { intros b. route_unfold.
    destruct (Route.request_json request) as [e|body]; [reflexivity|].
    cbn [Route.ret].
    destruct (Json.property (JS.lit "url") body) as [e|url]; [reflexivity|].
    cbn [Route.ret].
    destruct (Json.truthy url); cbn [negb]; [|reflexivity].
    fold (RouteFacts.forward_of match url with Some v => v | None => Json.Null end).
    destruct (b _) as [e|answer]; cbn [Route.throw Route.ret app]; [reflexivity|].
    route_cases; reflexivity. }
  split; [now rewrite !Hshape|]. rewrite Hshape.
  destruct (Route.request_json request) as [e|body].
  { intros (b & v & H & _). discriminate. }
  destruct (Json.property (JS.lit "url") body) as [e|url] eqn:Hurl.
  { intros (b & v & [= <-] & H & _). congruence. }
  destruct (Json.truthy url) eqn:Htruthy.
  - destruct (truthy_is_some url Htruthy) as [v ->]. exists body, v. auto.
  - intros (b & v & [= <-] & H & Ht). congruence.
Qed.

(** Induction on a JSON value, with the property at hand for the items of
    an array and the members of an object. *)
Lemma Json_value_forall_ind (P : Json.value -> Prop) :
  P Json.Null ->
  (forall b, P (Json.Bool b)) ->
  (forall x, P (Json.Number x)) ->
  (forall s, P (Json.Str s)) ->
  (forall items, Forall P items -> P (Json.Array items)) ->
  (forall members, Forall (fun m => P (snd m)) members -> P (Json.Object members)) ->
  forall v, P v.
Proof.
  intros Hnull Hbool Hnumber Hstr Harray Hobject.
  fix IH 1. intros [| b | x | s | items | members].
  - exact Hnull.
  - apply Hbool.
  - apply Hnumber.
  - apply Hstr.
  - apply Harray. induction items as [|item items IHitems]; constructor;
      [apply IH | exact IHitems].
  - apply Hobject. induction members as [|[k item] members IHmembers]; constructor;
      [apply IH | exact IHmembers].
Qed.

(** [JSON.stringify] writes a value as it is when each number in it is
    finite and no negative zero. *)
Lemma JSON_stringify_writable (v : Json.value) :
  RouteFacts.writable v = true -> RouteFacts.JSON_stringify v = v.
Proof.
  induction v as [| b | x | s | items IH | members IH] using Json_value_forall_ind;
    try reflexivity.
  - destruct x as [[|]| | |]; cbn; (reflexivity || discriminate).
  - cbn [RouteFacts.writable RouteFacts.JSON_stringify]. intros Hitems. f_equal.
    induction IH as [|item items Hitem _ IHitems]; [reflexivity|].
    cbn [forallb map] in *. apply andb_true_iff in Hitems. destruct Hitems as [H1 H2].
    rewrite Hitem, IHitems by assumption. reflexivity.
  - cbn [RouteFacts.writable RouteFacts.JSON_stringify]. intros Hmembers. f_equal.
    induction IH as [|[k item] members Hitem _ IHmembers]; [reflexivity|].
    cbn [forallb map fst snd] in *. apply andb_true_iff in Hmembers.
    destruct Hmembers as [H1 H2].
    rewrite Hitem, IHmembers by assumption. reflexivity.
Qed.

(** X14. When the body has a truthy [url] and the back end answers the
    forwarded request with a success status and a JSON payload, the
    handler answers 200 and gives the payload, as parsed, to
    [NextResponse.json]: the client reads what [JSON.stringify] writes of
    it, which is the payload itself when each number in it is finite and
    no negative zero; a number that is not finite arrives as [null]. *)
Theorem POST_passes_payload_through
    (backend : Route.FetchRequest -> Exn.result Route.BackendResponse)
    (request : Route.NextRequest)
    (body v data : Json.value) (answer : Route.BackendResponse) :
  Route.request_json request = inr body ->
  Json.property (JS.lit "url") body = inr (Some v) ->
  Json.truthy (Some v) = true ->
  backend (RouteFacts.forward_of v) = inr answer ->
  Route.ok answer = true ->
  Route.json answer = inr data ->
  exists response,
    Route.respond backend request = inr response /\
    Route.response_status response = 200 /\
    Route.response_body response = data /\
    RouteFacts.sent response = RouteFacts.JSON_stringify data /\
    (RouteFacts.writable data = true -> RouteFacts.sent response = data) /\
    (forall sign, data = Json.Number (SpecFloat.S754_infinity sign) ->
                  RouteFacts.sent response = Json.Null).
Proof.
  intros Hbody Hurl Htruthy Hanswer Hok Hdata.
  exists {| Route.response_status := 200; Route.response_body := data |}.
  split.
  - eapply POST_relays_ok_payload; eassumption.
  - unfold RouteFacts.sent. cbn [Route.response_status Route.response_body].
    split; [reflexivity|]. split; [reflexivity|]. split; [reflexivity|].
    split; [apply JSON_stringify_writable|].
    intros sign ->. reflexivity.
Qed.

(** X15. When the back end answers the forwarded request with a status
    that is no success, the handler answers with the same status and
    gives [{ error: detail }] to [NextResponse.json], [detail] being that
    of the back end's JSON body as parsed or, when that is missing or
    falsy, [Failed to clone website]; the status is one that a response
    with a body may carry.  The client reads an object whose [error] is
    what [JSON.stringify] writes of that detail: the detail itself when
    each number in it is finite and no negative zero. *)
Theorem POST_propagates_backend_error
    (backend : Route.FetchRequest -> Exn.result Route.BackendResponse)
    (request : Route.NextRequest)
    (body v errorData : Json.value) (detail : option Json.value)
    (answer : Route.BackendResponse) :
  Route.request_json request = inr body ->
  Json.property (JS.lit "url") body = inr (Some v) ->
  Json.truthy (Some v) = true ->
  backend (RouteFacts.forward_of v) = inr answer ->
  Route.ok answer = false ->
  RouteFacts.status_with_body (Route.status answer) = true ->
  Route.json answer = inr errorData ->
  Json.property (JS.lit "detail") errorData = inr detail ->
  exists response,
    Route.respond backend request = inr response /\
    Route.response_status response = Route.status answer /\
    Route.response_body response
    = Route.error_body (RouteFacts.detail_or_default detail) /\
    RouteFacts.sent response
    = Route.error_body (RouteFacts.JSON_stringify (RouteFacts.detail_or_default detail)) /\
    (RouteFacts.writable (RouteFacts.detail_or_default detail) = true ->
     RouteFacts.sent response = Route.error_body (RouteFacts.detail_or_default detail)) /\
    (Json.truthy detail = false ->
     RouteFacts.sent response
     = Route.error_body (Json.Str (JS.lit "Failed to clone website"))).
Proof.
  intros Hbody Hurl Htruthy Hanswer Hok Hstatus Hdata Hdetail.
  exists {| Route.response_status := Route.status answer;
            Route.response_body :=
              Route.error_body (RouteFacts.detail_or_default detail) |}.
  split.
  - route_unfold.
    rewrite Hbody; cbn [Route.ret]. rewrite Hurl; cbn [Route.ret].
    rewrite Htruthy; cbn [negb].
    fold (RouteFacts.forward_of v). rewrite Hanswer; cbn [Route.ret app].
    rewrite Hok; cbn [negb]. rewrite Hdata; cbn [Route.ret].
    rewrite Hdetail; cbn [Route.ret].
    unfold RouteFacts.status_with_body in Hstatus.
    apply andb_true_iff in Hstatus. destruct Hstatus as [Hrange Hnull].
    rewrite Hrange; cbn [negb]. apply negb_true_iff in Hnull. rewrite Hnull.
    reflexivity.
  - unfold RouteFacts.sent. cbn [Route.response_status Route.response_body].
    split; [reflexivity|]. split; [reflexivity|]. split; [reflexivity|]. split.
    + intros Hw. unfold Route.error_body.
      cbn [RouteFacts.JSON_stringify map fst snd].
      now rewrite JSON_stringify_writable.
    + intros Hfalsy. unfold RouteFacts.detail_or_default.
      destruct detail as [d|]; [rewrite Hfalsy|]; reflexivity.
Qed.

(** X16. The handler never throws.  Its answer is the 400 for a missing
    URL, the 500 for an exception, a 200 that carries the payload of a
    successful answer of the back end, or an error under the back end's
    own non-success status. *)
Theorem POST_answers_by_status
    (backend : Route.FetchRequest -> Exn.result Route.BackendResponse)
    (request : Route.NextRequest) :
  exists resp,
    Route.respond backend request = inr resp /\
    (resp = Route.bad_request \/
     resp = Route.internal_error \/
     (exists v answer,
        backend (RouteFacts.forward_of v) = inr answer /\
        Route.ok answer = true /\
        Route.json answer = inr (Route.response_body resp) /\
        Route.response_status resp = 200) \/
     (exists v answer detail,
        backend (RouteFacts.forward_of v) = inr answer /\
        Route.ok answer = false /\
        Route.response_status resp = Route.status answer /\
        Route.response_body resp = Route.error_body detail)).
Proof.
  route_unfold.
  destruct (Route.request_json request) as [e|body]; cbn [Route.throw Route.ret];
    [eexists; split; [reflexivity | auto]|].
  destruct (Json.property (JS.lit "url") body) as [e|url]; cbn [Route.throw Route.ret];
    [eexists; split; [reflexivity | auto]|].
  destruct (Json.truthy url); cbn [negb];
    [|eexists; split; [reflexivity | auto]].
  fold (RouteFacts.forward_of match url with Some v => v | None => Json.Null end).
  set (v := match url with Some v => v | None => Json.Null end).
  destruct (backend (RouteFacts.forward_of v)) as [e|answer] eqn:Hanswer;
    cbn [Route.throw Route.ret app]; [eexists; split; [reflexivity | auto]|].
  destruct (Route.ok answer) eqn:Hok; cbn [negb].
  - destruct (Route.json answer) as [e|data] eqn:Hdata; cbn [Route.throw Route.ret];
      [eexists; split; [reflexivity | auto]|].
    eexists; split; [reflexivity|]. right; right; left. exists v, answer. auto.
  - destruct (Route.json answer) as [e|errorData]; cbn [Route.throw Route.ret];
      [eexists; split; [reflexivity | auto]|].
    destruct (Json.property (JS.lit "detail") errorData) as [e|detail];
      cbn [Route.throw Route.ret]; [eexists; split; [reflexivity | auto]|].
    destruct ((200 <=? Route.status answer) && (Route.status answer <=? 599));
      cbn [negb Route.throw]; [|eexists; split; [reflexivity | auto]].
    destruct ((Route.status answer =? 204) || (Route.status answer =? 205)
              || (Route.status answer =? 304)); cbn [Route.throw Route.ret];
      [eexists; split; [reflexivity | auto]|].
    eexists; split; [reflexivity|]. right; right; right.
    exists v, answer. eexists. cbn. auto.
Qed.

(** ** The result view, further *)

(** X17. After the effect the view carries no warning exactly when the
    extracted content was found valid, and then it shows that content as
    extracted; with a warning it shows one of the two substitute
    documents. *)
Theorem processEffect_warns_iff_substitute
    (extractHtmlContent : option JS.str -> Exn.result JS.str)
    (isValidHtml : JS.str -> Exn.result bool)
    (result : Home.CloneResponse) (s : CloneResult.state) :
  let s' := CloneResult.processEffect extractHtmlContent isValidHtml result s in
  (CloneResult.htmlError s' = None <->
   exists extracted,
     extractHtmlContent (Home.clone_html result) = inr extracted /\
     isValidHtml extracted = inr true) /\
  (CloneResult.htmlError s' = None ->
   extractHtmlContent (Home.clone_html result) = inr (CloneResult.processedHtml s')) /\
  (CloneResult.htmlError s' <> None ->
   (exists error,
      CloneResult.processedHtml s' = CloneResult.failure_document result error) \/
   (exists extracted,
      extractHtmlContent (Home.clone_html result) = inr extracted /\
      CloneResult.processedHtml s' = CloneResult.invalid_document result extracted)).
Proof.
  cbv zeta. unfold CloneResult.processEffect.
  destruct (extractHtmlContent (Home.clone_html result)) as [e|x] eqn:Hx.
  - cbn. split; [split; [discriminate | intros (y & H & _); discriminate]|].
    split; [discriminate | eauto].
  - destruct (isValidHtml x) as [e|[|]] eqn:Hv; cbn.
    + split; [split; [discriminate | intros (y & [= <-] & H); congruence]|].
      split; [discriminate | eauto].
    + split; [split; [eauto | reflexivity]|].
      split; [reflexivity | intros H; now elim H].
    + split; [split; [discriminate | intros (y & [= <-] & H); congruence]|].
      split; [discriminate | eauto].
Qed.

(** X18. The effect overwrites both cells: what it leaves does not depend
    on the state before, so that a warning left by the preview of an
    earlier result does not stay. *)
Theorem processEffect_forgets_earlier_state
    (extractHtmlContent : option JS.str -> Exn.result JS.str)
    (isValidHtml : JS.str -> Exn.result bool)
    (result : Home.CloneResponse) (s1 s2 : CloneResult.state) :
  CloneResult.processEffect extractHtmlContent isValidHtml result s1
  = CloneResult.processEffect extractHtmlContent isValidHtml result s2.
Proof.
  unfold CloneResult.processEffect.
  destruct (extractHtmlContent (Home.clone_html result)) as [e|x]; [reflexivity|].
  destruct (isValidHtml x) as [e|[|]]; reflexivity.
Qed.

Lemma visibleElements_le (doc : CloneResult.Document) :
  List.length (CloneResult.visibleElements doc)
  <= List.length (CloneResult.elements doc).
Proof.
  unfold CloneResult.visibleElements, CloneResult.querySelectorAll.
  etransitivity; apply filter_length_le.
Qed.

(** X19. The content check leaves the state alone when the document of
    the preview cannot be reached; it flags every document without a body,
    and every document of fewer than five elements, whatever its text. *)
Theorem onLoad_edge_cases (doc : CloneResult.Document) (s : CloneResult.state) :
  (forall e, CloneResult.onLoad (inl e) s = s) /\
  CloneResult.onLoad (inr None) s = s /\
  (CloneResult.body doc = None ->
   CloneResult.htmlError (CloneResult.onLoad (inr (Some doc)) s)
   = Some (CloneResult.minimal_content_message doc)) /\
  (List.length (CloneResult.elements doc) < 5 ->
   CloneResult.htmlError (CloneResult.onLoad (inr (Some doc)) s)
   = Some (CloneResult.minimal_content_message doc)).
Proof.
  split; [reflexivity|]. split; [reflexivity|].
  unfold CloneResult.onLoad. split.
  - intros Hbody.
    assert (H : CloneResult.minimal_content doc = true).
    { unfold CloneResult.minimal_content, CloneResult.bodyText. now rewrite Hbody. }
    now rewrite H.
  - intros Hfew.
    assert (H : CloneResult.minimal_content doc = true).
    { apply minimal_content_iff. right.
      pose proof (visibleElements_le doc). lia. }
    now rewrite H.
Qed.

(** X20. Whatever the preview does after the effect, loading or failing
    any number of times, the HTML that is shown and downloaded stays the
    one that the effect set. *)
Theorem preview_events_keep_html
    (events : list ResultPanel.preview_event) (s : CloneResult.state) :
  CloneResult.processedHtml (fold_left ResultPanel.handle events s)
  = CloneResult.processedHtml s.
Proof.
  revert s; induction events as [|ev events IH]; intros s; [reflexivity|].
  cbn [fold_left]. rewrite IH.
  destruct ev as [[e|[doc|]]|]; cbn; try reflexivity.
  destruct (CloneResult.minimal_content doc); reflexivity.
Qed.


(** ** The further properties at sample inputs *)

Lemma handleSubmit_idempotent_witness :
  CloneForm.submitted MoreSamples.formatted = [MoreSamples.formatted].
Proof.
  apply (@handleSubmit_idempotent MoreSamples.typed MoreSamples.formatted).
  left. reflexivity.
Defined.

Lemma handleSubmit_passes_trimmed_url_witness :
  (exists first, hd_error MoreSamples.formatted = Some first /\
                 JS.isWhiteSpace first = false) /\
  (exists last, hd_error (rev MoreSamples.formatted) = Some last /\
                JS.isWhiteSpace last = false) /\
  7 <= JS.length MoreSamples.formatted.
Proof.
  apply (@handleSubmit_passes_trimmed_url MoreSamples.typed MoreSamples.formatted).
  left. reflexivity.
Defined.

Lemma demo_url_passed_unchanged_witness :
  CloneForm.submitted (JS.lit "https://" ++ JS.lit "stripe.com")
  = [JS.lit "https://" ++ JS.lit "stripe.com"].
Proof.
  apply (proj1 (proj2 (demo_url_passed_unchanged (JS.lit "stripe.com")))).
  - discriminate.
  - reflexivity.
Defined.

Lemma home_renders_result_or_banner_witness :
  HomeView.shows_result
    (Home.handleClone MoreSamples.failing_silently MoreSamples.formatted HomeView.initial)
  = false /\
  HomeView.shows_error
    (Home.handleClone MoreSamples.failing_silently MoreSamples.formatted HomeView.initial)
  = false.
Proof.
  apply (proj2 (proj2 (@home_renders_result_or_banner MoreSamples.failing_silently
                         MoreSamples.formatted HomeView.initial))).
  reflexivity.
Defined.

Lemma submit_sets_original_url_witness :
  CloneForm.submitted MoreSamples.formatted
  = [Home.originalUrl
       (HomeView.submit MoreSamples.accepts_all MoreSamples.resolving
          MoreSamples.formatted HomeView.initial)] /\
  HomeView.submit MoreSamples.accepts_all MoreSamples.resolving
    MoreSamples.formatted HomeView.initial
  = Home.handleClone MoreSamples.resolving
      (Home.originalUrl
         (HomeView.submit MoreSamples.accepts_all MoreSamples.resolving
            MoreSamples.formatted HomeView.initial))
      HomeView.initial /\
  CloneForm.begins_with_scheme
    (Home.originalUrl
       (HomeView.submit MoreSamples.accepts_all MoreSamples.resolving
          MoreSamples.formatted HomeView.initial))
  = true /\
  JS.trim (Home.originalUrl
             (HomeView.submit MoreSamples.accepts_all MoreSamples.resolving
                MoreSamples.formatted HomeView.initial))
  = Home.originalUrl
      (HomeView.submit MoreSamples.accepts_all MoreSamples.resolving
         MoreSamples.formatted HomeView.initial) /\
  Home.isLoading
    (HomeView.submit MoreSamples.accepts_all MoreSamples.resolving
       MoreSamples.formatted HomeView.initial)
  = false.
Proof.
  apply (proj2 (@submit_sets_original_url MoreSamples.accepts_all MoreSamples.resolving
                  MoreSamples.formatted HomeView.initial)).
  - reflexivity.
  - reflexivity.
Defined.

Lemma preview_handleClone_outcomes_witness :
  PreviewHome.cloneScreenshot
    (fst (PreviewHome.handleClone MoreSamples.clone_ok MoreSamples.screenshot_fails
            (Some (JS.lit "data:image/png;base64,BBBB"))
            MoreSamples.formatted PreviewHome.initial)) <> None.
Proof.
  apply (proj2 (proj1 (proj2 (proj2 (proj2 (proj2
           (@preview_handleClone_outcomes MoreSamples.clone_ok
              MoreSamples.screenshot_fails
              (Some (JS.lit "data:image/png;base64,BBBB"))
              MoreSamples.formatted PreviewHome.initial))))))).
  do 2 eexists. repeat split; reflexivity.
Defined.


Lemma handleDownload_saves_under_safe_name_witness :
  PreviewHome.handleDownload MoreSamples.cloned
  = [PreviewHome.SaveAs
       {| PreviewHome.blob_parts := [JS.lit "<html><body>ok</body></html>"];
          PreviewHome.blob_type := JS.lit "text/html" |}
       (JS.lit "example-com-clone.html")] /\
  ~ In 47%N (JS.lit "example-com-clone.html").
Proof.
  split; [reflexivity|].
  exact (proj1 (proj2 (proj2 (proj2 (proj2
           (handleDownload_saves_under_safe_name MoreSamples.cloned)))))).
Defined.

(** A clone that ends in a leading surrogate is not saved as it is. *)
Example toUSVString_replaces_unpaired_surrogate :
  PreviewHome.toUSVString (JS.lit "<p>" ++ [55357%N]) = JS.lit "<p>" ++ [65533%N] /\
  PreviewHome.isWellFormed (JS.lit "<p>" ++ [55357%N]) = false.
Proof. split; reflexivity. Qed.

(** A payload of one number beyond the doubles, as [JSON.parse] reads
    [1e999], arrives as [null]. *)
Example JSON_stringify_writes_infinity_as_null :
  RouteFacts.JSON_stringify
    (Json.Object [(JS.lit "score", Json.Number (SpecFloat.S754_infinity false))])
  = Json.Object [(JS.lit "score", Json.Null)].
Proof. reflexivity. Qed.


Lemma POST_forwards_at_most_once_witness :
  Route.forwarded MoreSamples.answering MoreSamples.request
  = Route.forwarded MoreSamples.refusing MoreSamples.request.
Proof.
  exact (proj1 (@POST_forwards_at_most_once MoreSamples.answering MoreSamples.refusing
                  MoreSamples.request)).
Defined.

Lemma POST_passes_payload_through_witness :
  exists response,
    Route.respond MoreSamples.answering MoreSamples.request = inr response /\
    Route.response_status response = 200 /\
    RouteFacts.sent response = MoreSamples.payload.
Proof.
  destruct (@POST_passes_payload_through MoreSamples.answering MoreSamples.request
              (Json.Object [(JS.lit "url", MoreSamples.wanted)]) MoreSamples.wanted
              MoreSamples.payload
              {| Route.status := 200; Route.json := inr MoreSamples.payload |}
              eq_refl eq_refl eq_refl eq_refl eq_refl eq_refl)
    as (response & Hresponse & Hstatus & _ & _ & Hsent & _).
  exists response. split; [exact Hresponse|]. split; [exact Hstatus|].
  apply Hsent. reflexivity.
Defined.

Lemma POST_propagates_backend_error_witness :
  exists response,
    Route.respond MoreSamples.refusing MoreSamples.request = inr response /\
    Route.response_status response = 404 /\
    RouteFacts.sent response
    = Route.error_body (Json.Str (JS.lit "Target not reachable")).
Proof.
  destruct (@POST_propagates_backend_error MoreSamples.refusing MoreSamples.request
              (Json.Object [(JS.lit "url", MoreSamples.wanted)]) MoreSamples.wanted
              MoreSamples.not_found (Some (Json.Str (JS.lit "Target not reachable")))
              {| Route.status := 404; Route.json := inr MoreSamples.not_found |}
              eq_refl eq_refl eq_refl eq_refl eq_refl eq_refl eq_refl eq_refl)
    as (response & Hresponse & Hstatus & _ & _ & Hsent & _).
  exists response. split; [exact Hresponse|]. split; [exact Hstatus|].
  apply Hsent. reflexivity.
Defined.

Lemma processEffect_warns_iff_substitute_witness :
  CloneResult.htmlError
    (CloneResult.processEffect Sample.extractHtmlContent Sample.isValidHtml
       MoreSamples.valid_response CloneResult.initial) = None.
Proof.
  apply (proj2 (proj1 (@processEffect_warns_iff_substitute Sample.extractHtmlContent
                         Sample.isValidHtml MoreSamples.valid_response
                         CloneResult.initial))).
  eexists. split; reflexivity.
Defined.

Lemma onLoad_edge_cases_witness :
  CloneResult.htmlError
    (CloneResult.onLoad (inr (Some MoreSamples.bodiless)) CloneResult.initial)
  = Some (CloneResult.minimal_content_message MoreSamples.bodiless).
Proof.
  apply (proj1 (proj2 (proj2 (onLoad_edge_cases MoreSamples.bodiless CloneResult.initial)))).
  reflexivity.
Defined.

